(** * InternationalCooperationModel: a shallow embedding and its specification

    The program integrates a two-region coupled growth model with SciPy's
    [odeint], reduces the trajectory to four metrics and prints a report.

    Numbers are IEEE-754 binary64 values, as in CPython and NumPy; they are
    modelled by the Standard Library's [spec_float] at precision 53 and
    exponent bound 1024, whose operations round to nearest, ties to even. *)

From Stdlib Require Import ZArith List String Ascii Bool Lia.
From Stdlib Require Import SpecFloat.
From Stdlib Require Import Numbers.DecimalString.
Import ListNotations.

Local Open Scope Z_scope.

(* ================================================================== *)
(** ** Binary64 arithmetic *)

Declare Scope float64_scope.
Delimit Scope float64_scope with f64.

Module Binary64.

Definition prec : Z := 53.
Definition emax : Z := 1024.

Definition float : Type := spec_float.

(** [float(z)] for a Python int: correctly rounded.  CPython raises
    OverflowError where the result would be an infinity, from 2^1024 on;
    every int converted below is smaller. *)
Definition of_int (z : Z) : float := binary_normalize prec emax z 0 false.

Definition add : float -> float -> float := SFadd prec emax.
Definition sub : float -> float -> float := SFsub prec emax.
Definition mul : float -> float -> float := SFmul prec emax.
(** NumPy's [true_divide] on float64: a zero divisor gives an infinity or
    NaN (and a RuntimeWarning on stderr), never an exception. *)
Definition div : float -> float -> float := SFdiv prec emax.

Definition eqb : float -> float -> bool := SFeqb.
Definition ltb : float -> float -> bool := SFltb.

(** The decimal literal [digits]e[exp10]: both [digits] and the power of
    ten are exact in the uses below, so one correctly rounded operation
    yields the double nearest to the literal. *)
Definition literal (digits exp10 : Z) : float :=
  if 0 <=? exp10 then of_int (digits * 10 ^ exp10)
  else div (of_int digits) (of_int (10 ^ (- exp10))).

Definition nan : float := S754_nan.

Definition is_nan (x : float) : bool :=
  match x with S754_nan => true | _ => false end.

Definition is_zero (x : float) : bool :=
  match x with S754_zero _ => true | _ => false end.

(** Neither NaN nor an infinity. *)
Definition is_finite (x : float) : bool :=
  match x with
  | S754_zero _ | S754_finite _ _ _ => true
  | S754_infinity _ | S754_nan => false
  end.

(** [x] is a binary64 number: a finite one has its significand and
    exponent in canonical form. *)
Definition is_binary64 (x : float) : bool := valid_binary prec emax x.

(** The sign bit of [x] is [s] (NaN carries none). *)
Definition sign_is (s : bool) (x : float) : Prop :=
  match x with
  | S754_zero s' | S754_infinity s' | S754_finite s' _ _ => s' = s
  | S754_nan => True
  end.

(** A finite number other than [0.0] and [-0.0]. *)
Definition is_finite_nonzero (x : float) : bool :=
  match x with S754_finite _ _ _ => true | _ => false end.

End Binary64.

Import Binary64.
Bind Scope float64_scope with float.
Infix "+" := add : float64_scope.
Infix "-" := sub : float64_scope.
Infix "*" := mul : float64_scope.
Infix "/" := div : float64_scope.

(* ================================================================== *)
(** ** Python values: exceptions, sequences, dictionaries *)

Module Py.

Inductive exn : Set :=
| ValueError
| IndexError
| TypeError
| ZeroDivisionError.

Inductive result (A : Type) : Type :=
| Ok (a : A)
| Raise (e : exn).
Arguments Ok {A} a.
Arguments Raise {A} e.

Definition bind {A B : Type} (r : result A) (k : A -> result B) : result B :=
  match r with
  | Ok a => k a
  | Raise e => Raise e
  end.

(** [seq[i]] with Python's negative indices. *)
Definition index {A : Type} (l : list A) (i : Z) : result A :=
  let n := Z.of_nat (List.length l) in
  let j := if i <? 0 then i + n else i in
  if (0 <=? j) && (j <? n) then
    match nth_error l (Z.to_nat j) with
    | Some x => Ok x
    | None => Raise IndexError
    end
  else Raise IndexError.

(** [x, y = seq] *)
Definition unpack2 {A : Type} (l : list A) : result (A * A) :=
  match l with
  | [x; y] => Ok (x, y)
  | _ => Raise ValueError
  end.

(** A [dict] keeps its items in insertion order. *)
Definition dict (V : Type) : Type := list (string * V).

Definition items {V : Type} (d : dict V) : list (string * V) := d.

Fixpoint get {V : Type} (d : dict V) (key : string) : option V :=
  match d with
  | [] => None
  | (k, v) :: d' => if String.eqb k key then Some v else get d' key
  end.

End Py.

Import Py.

Notation "x <- e ;; k" := (Py.bind e (fun x => k))
  (at level 61, e at next level, right associativity).
Notation "' pat <- e ;; k" := (Py.bind e (fun x => let 'pat := x in k))
  (at level 61, pat pattern, e at next level, right associativity).

(* ================================================================== *)
(** ** The NumPy functions the program calls *)

Module Np.

(** A one-dimensional float64 array, and a two-dimensional one as its
    list of rows. *)
Definition array1 : Type := list float.
Definition array2 : Type := list (list float).

(** The eight running sums of NumPy's [pairwise_sum] after [blocks] more
    blocks of eight entries of [a]; what is left of [a] comes with them. *)
Fixpoint add_blocks (blocks : nat) (r a : array1) : array1 * array1 :=
  match blocks with
  | O => (r, a)
  | S blocks' =>
      add_blocks blocks'
        (map (fun p => (fst p + snd p)%f64) (combine r (firstn 8 a)))
        (skipn 8 a)
  end.

(** A block of 8 to 128 entries: eight running sums over the blocks of
    eight, added as a tree, then the entries left over one by one. *)
Definition sum_unrolled (a : array1) : float :=
  let '(r, rest) :=
    add_blocks (Nat.div (List.length a) 8 - 1) (firstn 8 a) (skipn 8 a) in
  match r with
  | [r0; r1; r2; r3; r4; r5; r6; r7] =>
      fold_left add rest
        (((r0 + r1) + (r2 + r3)) + ((r4 + r5) + (r6 + r7)))%f64
  | _ => nan
  end.

(** NumPy's [pairwise_sum]: fewer than eight entries are added from left
    to right, starting from [-0.0]; up to 128 go through [sum_unrolled];
    a longer array is cut near its middle, at a multiple of eight.  The
    fuel bounds the depth of the cuts; the length of the array is
    enough. *)
Fixpoint pairwise_sum (fuel : nat) (a : array1) : float :=
  let n := List.length a in
  if Nat.ltb n 8 then fold_left add a (S754_zero true)
  else if Nat.leb n 128 then sum_unrolled a
  else
    match fuel with
    | O => sum_unrolled a
    | S fuel' =>
        let half := Nat.div n 2 in
        let n2 := (half - Nat.modulo half 8)%nat in
        (pairwise_sum fuel' (firstn n2 a) +
         pairwise_sum fuel' (skipn n2 a))%f64
    end.

(** [np.sum] of a row: the reduction starts from the identity [0.0] of
    the addition and adds the pairwise sum of the row to it. *)
Definition sum (row : array1) : float :=
  (of_int 0 + pairwise_sum (List.length row) row)%f64.

(** [a[i, j]] *)
Definition index2 (a : array2) (i j : Z) : result float :=
  row <- index a i ;; index row j.

(** [np.arange(0, num)] as float64, for a number of entries within
    NumPy's size limit (every grid below is). *)
Definition arange (num : Z) : array1 :=
  map (fun i => of_int (Z.of_nat i)) (seq 0 (Z.to_nat num)).

(** [y[-1] = stop] *)
Definition set_last (y : array1) (stop : float) : array1 :=
  match y with
  | [] => []
  | _ :: _ => removelast y ++ [stop]
  end.

(** [np.linspace(start, stop, num)] with the default [endpoint=True]:
    [num] samples [start + i * step], [step = (stop - start) / (num - 1)],
    the last one overwritten by [stop]. *)
Definition linspace (start stop : float) (num : Z) : result array1 :=
  if num <? 0 then Raise ValueError
  else
    let div := num - 1 in
    let delta := (stop - start)%f64 in
    let y := arange num in
    let y :=
      if 0 <? div then
        let step := (delta / of_int div)%f64 in
        if eqb step (of_int 0)
        then map (fun v => (v / of_int div * delta)%f64) y
        else map (fun v => (v * step)%f64) y
      else map (fun v => (v * delta)%f64) y in
    let y := map (fun v => (v + start)%f64) y in
    Ok (if 1 <? num then set_last y stop else y).

End Np.

(* ================================================================== *)
(** ** The format specification [.2f] *)

Module Fmt.

Local Open Scope string_scope.

Definition nl : string := String "010" EmptyString.

Definition digit (d : Z) : ascii := ascii_of_nat (48 + Z.to_nat d)%nat.

(** [str(n)] for a non-negative int. *)
Definition decimal (n : Z) : string :=
  NilZero.string_of_uint (N.to_uint (Z.to_N n)).

(** The integer nearest to [num / den], ties to the even one
    ([0 < den]). *)
Definition round_half_even (num den : Z) : Z :=
  (let q := num / den in
   let r := num mod den in
   match 2 * r ?= den with
   | Lt => q
   | Gt => q + 1
   | Eq => if Z.even q then q else q + 1
   end)%Z.

(** The magnitude [m * 2^e] in hundredths, correctly rounded. *)
Definition hundredths (m : positive) (e : Z) : Z :=
  (if 0 <=? e then Zpos m * 2 ^ e * 100
   else round_half_even (Zpos m * 100) (2 ^ (- e)))%Z.

Definition sign (s : bool) : string := if s then "-" else "".

(** [n] hundredths written with two decimals. *)
Definition fixed2 (n : Z) : string :=
  decimal (n / 100)%Z ++ "." ++
  String (digit (n mod 100 / 10)%Z) (String (digit (n mod 10)%Z) "").

(** [f"{x:.2f}"] *)
Definition format_2f (x : float) : string :=
  match x with
  | S754_nan => "nan"
  | S754_infinity s => sign s ++ "inf"
  | S754_zero s => sign s ++ fixed2 0
  | S754_finite s m e => sign s ++ fixed2 (hundredths m e)
  end.

End Fmt.

(* ================================================================== *)
(** ** The program *)

Module InternationalCooperationModel.

(** The attributes of an instance. *)
Record Model : Type := {
  tech_transfer_rate : float;
  trade_growth_rate : float;
  collaboration_factor : float;
  resource_constraint : float
}.

Definition __init__ : Model := {|
  tech_transfer_rate := literal 3 (-1);
  trade_growth_rate := literal 2 (-1);
  collaboration_factor := literal 4 (-1);
  resource_constraint := literal 1 (-1)
|}.

Definition cooperation_dynamics (self : Model) (state : list float)
    (t a b c d : float) : result (list float) :=
  '(region1, region2) <- unpack2 state ;;
  let d_region1 :=
    (a * region1 * (of_int 1 - region1 / of_int 100) +
     b * region1 * region2 / (of_int 1 + region2))%f64 in
  let d_region2 :=
    (c * region2 * (of_int 1 - region2 / of_int 100) +
     d * region1 * region2 / (of_int 1 + region1))%f64 in
  Ok [d_region1; d_region2].

(** [func(y, t, *args)]: how [odeint] calls the right-hand side with the
    tuple it received as [args]. *)
Definition call_with_args
    (func : list float -> float -> float -> float -> float -> float ->
            result (list float))
    (y : list float) (t : float) (args : list float) : result (list float) :=
  match args with
  | [a; b; c; d] => func y t a b c d
  | _ => Raise TypeError
  end.

(** The tuple [params] built by [simulate_cooperation]. *)
Definition params (self : Model) : list float :=
  [tech_transfer_rate self; trade_growth_rate self;
   collaboration_factor self; resource_constraint self].

Definition initial_state : list float := [of_int 20; of_int 20].

Section Simulation.

(** [scipy.integrate.odeint(func, y0, t, args)]: the LSODA integrator
    of ODEPACK, a library outside this program. *)
Variable odeint :
  (list float -> float -> list float -> result (list float)) ->
  list float -> Np.array1 -> list float -> result Np.array2.

Definition simulate_cooperation (self : Model) (years : Z)
    : result (Np.array1 * Np.array2) :=
  t <- Np.linspace (of_int 0) (of_int years) (years * 12) ;;
  solution <- odeint (call_with_args (cooperation_dynamics self))
                     initial_state t (params self) ;;
  Ok (t, solution).

End Simulation.

Definition calculate_metrics (self : Model) (solution : Np.array2)
    : result (dict float) :=
  region1_final <- Np.index2 solution (-1) 0 ;;
  region2_final <- Np.index2 solution (-1) 1 ;;
  last_row <- index solution (-1) ;;
  first_row <- index solution 0 ;;
  let total_growth := (Np.sum last_row - Np.sum first_row)%f64 in
  f0 <- Np.index2 solution (-1) 0 ;;
  f1 <- Np.index2 solution (-1) 1 ;;
  i0 <- Np.index2 solution 0 0 ;;
  i1 <- Np.index2 solution 0 1 ;;
  let synergy_index := (f0 * f1 / (i0 * i1))%f64 in
  Ok [("Region 1 Final Level"%string, region1_final);
      ("Region 2 Final Level"%string, region2_final);
      ("Total Growth"%string, total_growth);
      ("Synergy Index"%string, synergy_index)].

Local Open Scope string_scope.

(** One pass of the loop [for metric, value in metrics.items()]. *)
Definition metric_line (item : string * float) : string :=
  fst item ++ ": " ++ Fmt.format_2f (snd item) ++ Fmt.nl.

Definition generate_report (self : Model) (metrics : dict float) : string :=
  let report := "International Cooperation Analysis" ++ Fmt.nl in
  let report := report ++ "===============================" ++ Fmt.nl ++ Fmt.nl in
  let report := report ++ "Model Parameters:" ++ Fmt.nl in
  let report := report ++ "Technology Transfer Rate: " ++
                Fmt.format_2f (tech_transfer_rate self) ++ Fmt.nl in
  let report := report ++ "Trade Growth Rate: " ++
                Fmt.format_2f (trade_growth_rate self) ++ Fmt.nl in
  let report := report ++ "Collaboration Factor: " ++
                Fmt.format_2f (collaboration_factor self) ++ Fmt.nl in
  let report := report ++ "Resource Constraint: " ++
                Fmt.format_2f (resource_constraint self) ++ Fmt.nl ++ Fmt.nl in
  let report := report ++ "Results:" ++ Fmt.nl in
  fold_left (fun report item => report ++ metric_line item)
            (items metrics) report.

End InternationalCooperationModel.

Import InternationalCooperationModel.

(* ================================================================== *)
(** ** Trajectories as the program sees them *)

(** A state is a pair of development levels; [odeint] returns the
    trajectory as an array with one row [[region1, region2]] per time. *)
Definition State : Type := (float * float)%type.

Definition row_of (s : State) : list float := [fst s; snd s].

Definition as_array (traj : list State) : Np.array2 := map row_of traj.

(** The entry a trajectory ends with ([first] when it has a single one). *)
Definition final_of (first : State) (rest : list State) : State :=
  last (first :: rest) first.

(** The dictionary [calculate_metrics] builds from an initial and a final
    state. *)
Definition metrics_of (initial final : State) : dict float :=
  [("Region 1 Final Level"%string, fst final);
   ("Region 2 Final Level"%string, snd final);
   ("Total Growth"%string,
      (Np.sum (row_of final) - Np.sum (row_of initial))%f64);
   ("Synergy Index"%string,
      (fst final * snd final / (fst initial * snd initial))%f64)].

(** One entry of the dictionary returned by [calculate_metrics]. *)
Definition metric (self : Model) (solution : Np.array2) (name : string)
    : result (option float) :=
  metrics <- calculate_metrics self solution ;; Ok (get metrics name).

(** The time points [simulate_cooperation] builds for a horizon. *)
Definition time_points (years : Z) : result Np.array1 :=
  Np.linspace (of_int 0) (of_int years) (years * 12).

(** [years=50], the default of [simulate_cooperation]. *)
Definition default_years : Z := 50.

(** Each element is strictly below the next one. *)
Fixpoint increasing (l : list float) : bool :=
  match l with
  | x :: (y :: _) as l' => ltb x y && increasing l'
  | _ => true
  end.

(** A stand-in for [odeint] in examples: it holds the initial state at
    every time point. *)
Definition frozen_odeint
    (func : list float -> float -> list float -> result (list float))
    (y0 : list float) (t : Np.array1) (args : list float)
    : result Np.array2 :=
  Ok (map (fun _ => y0) t).

(** The lines of a text, each closed by a newline. *)
Definition unlines (lines : list string) : string :=
  fold_right (fun line text => (line ++ Fmt.nl ++ text)%string)
             EmptyString lines.

(** The dictionary of the four metrics, in the order [calculate_metrics]
    inserts them. *)
Definition four_metrics (region1_final region2_final total_growth
                         synergy_index : float) : dict float :=
  [("Region 1 Final Level"%string, region1_final);
   ("Region 2 Final Level"%string, region2_final);
   ("Total Growth"%string, total_growth);
   ("Synergy Index"%string, synergy_index)].

Definition is_digit (c : ascii) : bool :=
  ((48 <=? nat_of_ascii c) && (nat_of_ascii c <=? 57))%nat.

Fixpoint skip_digits (s : string) : string :=
  match s with
  | String c s' => if is_digit c then skip_digits s' else s
  | EmptyString => EmptyString
  end.

(** One digit or more, a point, exactly two digits. *)
Definition unsigned_two_decimals (s : string) : bool :=
  match s with
  | String c _ =>
      is_digit c &&
      match skip_digits s with
      | String "." (String d1 (String d2 EmptyString)) =>
          is_digit d1 && is_digit d2
      | _ => false
      end
  | EmptyString => false
  end.

(** A number written with exactly two decimals, with or without a minus
    sign. *)
Definition two_decimals (s : string) : bool :=
  match s with
  | String "-" s' => unsigned_two_decimals s'
  | _ => unsigned_two_decimals s
  end.

(** Sample inputs. *)
Definition origin : State := (of_int 0, of_int 0).
Definition negative_origin : State := (S754_zero true, S754_zero true).
Definition start20 : State := (of_int 20, of_int 20).
Definition huge : State := (literal 1 200, literal 1 200).

(* ================================================================== *)
(** ** Output: the console and the figure *)

Module Plt.

(** The calls the program makes to [matplotlib.pyplot], with their
    arguments. *)
Inductive call : Type :=
| figure (width height : Z)
| subplot (nrows ncols index : Z)
| plot (x y : Np.array1) (fmt : string) (label : option string)
| xlabel (text : string)
| ylabel (text : string)
| title (text : string)
| legend
| grid (visible : bool)
| tight_layout
| show.

Definition is_show (c : call) : bool :=
  match c with show => true | _ => false end.

Definition is_plot (c : call) : bool :=
  match c with plot _ _ _ _ => true | _ => false end.

End Plt.

(** What a run leaves behind: the text written to standard output and the
    [pyplot] calls made, in order. *)
Record World : Type := {
  stdout : string;
  calls : list Plt.call
}.

(** A statement with effects: it changes the world and returns a value or
    raises. *)
Definition IO (A : Type) : Type := World -> World * result A.

Definition io_bind {A B : Type} (m : IO A) (k : A -> IO B) : IO B :=
  fun w =>
    match m w with
    | (w', Ok a) => k a w'
    | (w', Raise e) => (w', Raise e)
    end.

(** A computation without effects. *)
Definition lift {A : Type} (r : result A) : IO A := fun w => (w, r).

(** [print(text)] *)
Definition print (text : string) : IO unit :=
  fun w =>
    ({| stdout := (stdout w ++ text ++ Fmt.nl)%string; calls := calls w |},
     Ok tt).

(** A call [plt.f(...)] that cannot fail. *)
Definition plt (c : Plt.call) : IO unit :=
  fun w => ({| stdout := stdout w; calls := calls w ++ [c] |}, Ok tt).

(** [plt.plot(x, y, fmt, label=...)]: [x] and [y] must have the same
    length. *)
Definition plt_plot (x y : Np.array1) (fmt : string) (label : option string)
    : IO unit :=
  if Nat.eqb (List.length x) (List.length y)
  then plt (Plt.plot x y fmt label)
  else lift (Raise ValueError).

(** [a[:, j]] *)
Fixpoint column (a : Np.array2) (j : Z) : result Np.array1 :=
  match a with
  | [] => Ok []
  | row :: a' =>
      x <- index row j ;; xs <- column a' j ;; Ok (x :: xs)
  end.

Declare Scope io_scope.
Delimit Scope io_scope with io.
Notation "x <- e ;; k" := (io_bind e (fun x => k))
  (at level 61, e at next level, right associativity) : io_scope.
Notation "e ;; k" := (io_bind e (fun _ => k))
  (at level 61, right associativity) : io_scope.

Definition plot_results (self : Model) (t : Np.array1)
    (solution : Np.array2) : IO unit :=
  (plt (Plt.figure 12 8) ;;
   plt (Plt.subplot 2 1 1) ;;
   region1 <- lift (column solution 0) ;;
   plt_plot t region1 "b-" (Some "Region 1"%string) ;;
   region2 <- lift (column solution 1) ;;
   plt_plot t region2 "g-" (Some "Region 2"%string) ;;
   plt (Plt.xlabel "Time (Years)") ;;
   plt (Plt.ylabel "Development Level") ;;
   plt (Plt.title "Regional Development Through Cooperation") ;;
   plt Plt.legend ;;
   plt (Plt.grid true) ;;
   plt (Plt.subplot 2 1 2) ;;
   x <- lift (column solution 0) ;;
   y <- lift (column solution 1) ;;
   plt_plot x y "r-" None ;;
   plt (Plt.xlabel "Region 1 Development") ;;
   plt (Plt.ylabel "Region 2 Development") ;;
   plt (Plt.title "Development Phase Space") ;;
   plt (Plt.grid true) ;;
   plt Plt.tight_layout ;;
   plt Plt.show)%io.

Section Main.

Variable odeint :
  (list float -> float -> list float -> result (list float)) ->
  list float -> Np.array1 -> list float -> result Np.array2.

Definition main : IO unit :=
  (let model := __init__ in
   run <- lift (simulate_cooperation odeint model default_years) ;;
   let '(t, solution) := run in
   metrics <- lift (calculate_metrics model solution) ;;
   print (generate_report model metrics) ;;
   plot_results model t solution)%io.

End Main.

(** The world before a run. *)
Definition blank : World := {| stdout := EmptyString; calls := [] |}.

(** The calls [plot_results] makes when nothing fails. *)
Definition figure_calls (t region1 region2 : Np.array1) : list Plt.call :=
  [Plt.figure 12 8;
   Plt.subplot 2 1 1;
   Plt.plot t region1 "b-" (Some "Region 1"%string);
   Plt.plot t region2 "g-" (Some "Region 2"%string);
   Plt.xlabel "Time (Years)";
   Plt.ylabel "Development Level";
   Plt.title "Regional Development Through Cooperation";
   Plt.legend;
   Plt.grid true;
   Plt.subplot 2 1 2;
   Plt.plot region1 region2 "r-" None;
   Plt.xlabel "Region 1 Development";
   Plt.ylabel "Region 2 Development";
   Plt.title "Development Phase Space";
   Plt.grid true;
   Plt.tight_layout;
   Plt.show].

(** ** Further notions for the statements below *)

(** Equal, or both a zero (the two zeros differ in sign only). *)
Definition same_up_to_zero_sign (x y : float) : Prop :=
  x = y \/ (is_zero x = true /\ is_zero y = true).

(** A stand-in for an [odeint] that fails. *)
Definition failing_odeint
    (func : list float -> float -> list float -> result (list float))
    (y0 : list float) (t : Np.array1) (args : list float)
    : result Np.array2 :=
  Raise ValueError.

(** The state with its two regions exchanged. *)
Definition exchange (s : State) : State := (snd s, fst s).

(** Every row of the array has [k] entries. *)
Definition rectangular (k : nat) (a : Np.array2) : Prop :=
  Forall (fun row => List.length row = k) a.

(** The names of the four metrics, in the order of insertion. *)
Definition metric_names : list string :=
  ["Region 1 Final Level"; "Region 2 Final Level";
   "Total Growth"; "Synergy Index"]%string.

(** The ten lines every report starts with. *)
Definition head_lines (self : Model) : list string :=
  ["International Cooperation Analysis";
   "===============================";
   "";
   "Model Parameters:";
   "Technology Transfer Rate: " ++ Fmt.format_2f (tech_transfer_rate self);
   "Trade Growth Rate: " ++ Fmt.format_2f (trade_growth_rate self);
   "Collaboration Factor: " ++ Fmt.format_2f (collaboration_factor self);
   "Resource Constraint: " ++ Fmt.format_2f (resource_constraint self);
   "";
   "Results:"]%string.

(** The text of one metric line, without its newline. *)
Definition item_text (item : string * float) : string :=
  (fst item ++ ": " ++ Fmt.format_2f (snd item))%string.

Fixpoint count_newlines (s : string) : nat :=
  match s with
  | EmptyString => 0
  | String c s' =>
      ((if Ascii.eqb c "010" then 1 else 0) + count_newlines s')%nat
  end.

(* ================================================================== *)
(** ** Sequences and indexing *)

Lemma index_first {A : Type} (x : A) (l : list A) :
  index (x :: l) 0 = Ok x.
Proof.
  unfold index. cbn [List.length].
  replace (0 <? 0) with false by reflexivity.
  replace (0 <=? 0) with true by reflexivity.
  assert (H : (0 <? Z.of_nat (S (List.length l))) = true)
    by (apply Z.ltb_lt; lia).
  rewrite H. reflexivity.
Qed.

Lemma last_cons {A : Type} (l : list A) (x d : A) :
  last (x :: l) d = last l x.
Proof.
  revert x d. induction l as [|y l IH]; intros x d; [reflexivity|].
  change (last (x :: y :: l) d) with (last (y :: l) d).
  rewrite (IH y d), (IH y x). reflexivity.
Qed.

Lemma nth_error_last {A : Type} (l : list A) (x : A) :
  nth_error (x :: l) (List.length l) = Some (last (x :: l) x).
Proof.
  rewrite last_cons. revert x.
  induction l as [|y l IH]; intros x; [reflexivity|].
  cbn [List.length nth_error]. rewrite IH, last_cons. reflexivity.
Qed.

Lemma index_last {A : Type} (x : A) (l : list A) :
  index (x :: l) (-1) = Ok (last (x :: l) x).
Proof.
  unfold index. cbn [List.length].
  replace (-1 <? 0) with true by reflexivity.
  replace (-1 + Z.of_nat (S (List.length l))) with (Z.of_nat (List.length l))
    by lia.
  assert (H1 : (0 <=? Z.of_nat (List.length l)) = true)
    by (apply Z.leb_le; lia).
  assert (H2 : (Z.of_nat (List.length l) <? Z.of_nat (S (List.length l))) = true)
    by (apply Z.ltb_lt; lia).
  rewrite H1, H2, Nat2Z.id, nth_error_last. reflexivity.
Qed.

Lemma last_map {A B : Type} (f : A -> B) (l : list A) (d : A) :
  last (map f l) (f d) = f (last l d).
Proof.
  revert d. induction l as [|x l IH]; intros d; [reflexivity|].
  cbn [map]. rewrite !last_cons. apply IH.
Qed.

(* ================================================================== *)
(** ** Facts of binary64 arithmetic *)

Lemma div_eucl_shift (m : positive) :
  Z.div_eucl (Z.shiftl (Zpos m) 53) (Zpos m) = (2 ^ 53, 0).
Proof.
  rewrite Z.shiftl_mul_pow2 by lia.
  generalize (Z.div_eucl_eq (Zpos m * 2 ^ 53) (Zpos m) ltac:(lia)).
  generalize (Z.mod_pos_bound (Zpos m * 2 ^ 53) (Zpos m) ltac:(lia)).
  unfold Z.modulo, Z.div.
  destruct (Z.div_eucl (Zpos m * 2 ^ 53) (Zpos m)) as [q r].
  intros Hr Heq.
  assert (Hq : q = 2 ^ 53) by nia.
  subst q. f_equal. lia.
Qed.

(** A finite nonzero number divided by itself is exactly [1.0]. *)
Lemma div_self (x : float) :
  is_finite_nonzero x = true -> (x / x)%f64 = of_int 1.
Proof.
  destruct x as [| | |s m e]; try discriminate. intros _.
  unfold div, SFdiv, SFdiv_core_binary.
  replace (Zdigits2 (Zpos m) + e - (Zdigits2 (Zpos m) + e)) with 0 by lia.
  replace (e - e) with 0 by lia.
  change (Z.min (fexp prec emax 0) 0) with (-53).
  change (0 - -53) with 53.
  cbv iota beta.
  rewrite div_eucl_shift.
  assert (Hloc : new_location (Zpos m) 0 = loc_Exact).
  { unfold new_location, new_location_even, new_location_odd.
    destruct (Z.even (Zpos m)); reflexivity. }
  rewrite Hloc. destruct s; reflexivity.
Qed.

(** A product with a zero factor is a zero or NaN. *)
Lemma mul_zero_l (x y : float) :
  is_zero x = true -> is_zero (x * y)%f64 = true \/ is_nan (x * y)%f64 = true.
Proof.
  destruct x; try discriminate. intros _.
  destruct y; cbn; auto.
Qed.

Lemma mul_zero_r (x y : float) :
  is_zero y = true -> is_zero (x * y)%f64 = true \/ is_nan (x * y)%f64 = true.
Proof.
  destruct y; try discriminate. intros _.
  destruct x; cbn; auto.
Qed.

(** Dividing by a zero or by NaN never gives a finite number. *)
Lemma div_zero_not_finite (x y : float) :
  is_zero y = true \/ is_nan y = true -> is_finite (x / y)%f64 = false.
Proof.
  intros [H|H]; destruct y; try discriminate; destruct x; reflexivity.
Qed.

(** *** Integers, their quotients and rounding

    The number of bits [digits2_pos] of a significand decides how far
    rounding shifts it. *)

Lemma digits2_size (p : positive) : digits2_pos p = Pos.size p.
Proof. induction p; cbn; congruence. Qed.

Lemma digits2_bounds (p : positive) :
  2 ^ (Zpos (digits2_pos p) - 1) <= Zpos p < 2 ^ Zpos (digits2_pos p).
Proof.
  rewrite digits2_size.
  assert (H : Z.log2 (Zpos p) = Zpos (Pos.size p) - 1).
  { destruct p; cbn [Z.log2 Pos.size]; rewrite ?Pos2Z.inj_succ; lia. }
  generalize (Z.log2_spec (Zpos p) ltac:(lia)).
  rewrite H. replace (Z.succ (Zpos (Pos.size p) - 1)) with (Zpos (Pos.size p)) by lia.
  tauto.
Qed.

Lemma digits2_unique (p : positive) (d : Z) :
  2 ^ (d - 1) <= Zpos p < 2 ^ d -> Zpos (digits2_pos p) = d.
Proof.
  intros H. generalize (digits2_bounds p). intros H'.
  assert (0 < d).
  { destruct (Z.ltb_spec 0 d); [assumption|].
    exfalso. assert (2 ^ d <= 1).
    { destruct (Z.eq_dec d 0); [subst; cbn; lia|]. rewrite Z.pow_neg_r by lia. lia. }
    lia. }
  set (k := Zpos (digits2_pos p)) in *.
  assert (0 < k) by (unfold k; lia).
  destruct (Z.lt_trichotomy k d) as [Hlt|[Heq|Hgt]]; [exfalso|assumption|exfalso].
  - assert (2 ^ k <= 2 ^ (d - 1)) by (apply Z.pow_le_mono_r; lia). lia.
  - assert (2 ^ d <= 2 ^ (k - 1)) by (apply Z.pow_le_mono_r; lia). lia.
Qed.

Lemma fexp_eq (x : Z) : -1021 <= x -> fexp prec emax x = x - 53.
Proof. unfold fexp, SpecFloat.emin, prec, emax. lia. Qed.

Lemma shr_fexp_53 (m : positive) (e : Z) (l : location) :
  Zpos (digits2_pos m) = 53 -> -1074 <= e ->
  shr_fexp prec emax (Zpos m) e l = (shr_record_of_loc (Zpos m) l, e).
Proof.
  intros Hd He. unfold shr_fexp, Zdigits2. rewrite Hd, fexp_eq by lia.
  replace (53 + e - 53 - e) with 0 by lia. reflexivity.
Qed.

Lemma shr_fexp_54 (m : positive) (e : Z) (l : location) :
  Zpos (digits2_pos m) = 54 -> -1075 <= e ->
  shr_fexp prec emax (Zpos m) e l =
  (shr_1 (shr_record_of_loc (Zpos m) l), e + 1).
Proof.
  intros Hd He. unfold shr_fexp, Zdigits2. rewrite Hd, fexp_eq by lia.
  replace (54 + e - 53 - e) with 1 by lia. reflexivity.
Qed.

Lemma shr_m_record_of_loc (m : Z) (l : location) :
  shr_m (shr_record_of_loc m l) = m.
Proof. destruct l as [|[| |]]; reflexivity. Qed.

Lemma shr_1_pos (q : positive) (l : location) :
  2 <= Zpos q ->
  exists p, shr_m (shr_1 (shr_record_of_loc (Zpos q) l)) = Zpos p /\
            2 * Zpos p <= Zpos q <= 2 * Zpos p + 1.
Proof.
  intros Hq. destruct q as [p|p|]; [| |lia];
    exists p; destruct l as [|[| |]]; cbn; lia.
Qed.

(** After the first shift the significand has exactly 53 bits. *)
Lemma shr_fexp_pos (q : positive) (e : Z) (l : location) :
  2 ^ 52 <= Zpos q < 2 ^ 54 -> -1074 <= e ->
  exists mrs e' p,
    shr_fexp prec emax (Zpos q) e l = (mrs, e') /\
    shr_m mrs = Zpos p /\ 2 ^ 52 <= Zpos p < 2 ^ 53 /\ e <= e' <= e + 1.
Proof.
  intros Hq He.
  destruct (Z.ltb_spec (Zpos q) (2 ^ 53)) as [Hlt|Hge].
  - rewrite shr_fexp_53 by (try apply digits2_unique; lia).
    eexists _, _, q. split; [reflexivity|].
    rewrite shr_m_record_of_loc. repeat split; lia.
  - rewrite shr_fexp_54 by (try apply digits2_unique; lia).
    destruct (shr_1_pos q l ltac:(lia)) as (p & Hp & Hb).
    eexists _, _, p. split; [reflexivity|]. repeat split; try lia; exact Hp.
Qed.

Lemma round_nearest_even_pos (p : positive) (l : location) :
  exists r, round_nearest_even (Zpos p) l = Zpos r /\
            Zpos p <= Zpos r <= Zpos p + 1.
Proof.
  destruct l as [|[| |]]; cbn [round_nearest_even].
  - exists p; split; [reflexivity|lia].
  - destruct (Z.even (Zpos p)).
    + exists p; split; [reflexivity|lia].
    + exists (p + 1)%positive; split; [reflexivity|lia].
  - exists p; split; [reflexivity|lia].
  - exists (p + 1)%positive; split; [reflexivity|lia].
Qed.

(** Rounding a significand of 53 or 54 bits at a moderate exponent gives
    a finite nonzero number of the same sign. *)
Lemma binary_round_aux_finite (s : bool) (q : positive) (e : Z) (l : location) :
  2 ^ 52 <= Zpos q < 2 ^ 54 -> -1074 <= e <= 900 ->
  exists m e', binary_round_aux prec emax s (Zpos q) e l = S754_finite s m e'.
Proof.
  intros Hq He. unfold binary_round_aux.
  destruct (shr_fexp_pos q e l Hq ltac:(lia)) as (mrs & e1 & p & -> & Hm & Hp & He1).
  rewrite Hm.
  destruct (round_nearest_even_pos p (loc_of_shr_record mrs)) as (r & -> & Hr).
  destruct (shr_fexp_pos r e1 loc_Exact ltac:(lia) ltac:(lia))
    as (mrs2 & e2 & p2 & -> & Hm2 & Hp2 & He2).
  rewrite Hm2.
  assert (Hle : (e2 <=? emax - prec) = true)
    by (apply Z.leb_le; unfold emax, prec; lia).
  rewrite Hle. eauto.
Qed.

Lemma digits2_iter_xO (p k : positive) :
  Zpos (digits2_pos (Pos.iter xO p k)) = Zpos (digits2_pos p) + Zpos k.
Proof.
  induction k as [|k IH] using Pos.peano_ind.
  - cbn. lia.
  - rewrite Pos.iter_succ. cbn [digits2_pos]. lia.
Qed.

Lemma binary_round_aux_canonical (s : bool) (m : positive) (e : Z) :
  Zpos (digits2_pos m) = 53 -> -1074 <= e <= 971 ->
  binary_round_aux prec emax s (Zpos m) e loc_Exact = S754_finite s m e.
Proof.
  intros Hd He. unfold binary_round_aux.
  rewrite shr_fexp_53 by (assumption || lia).
  cbn [shr_record_of_loc shr_m loc_of_shr_record round_nearest_even].
  rewrite shr_fexp_53 by (assumption || lia).
  cbn [shr_record_of_loc shr_m].
  assert (Hle : (e <=? emax - prec) = true)
    by (apply Z.leb_le; unfold emax, prec; lia).
  rewrite Hle. reflexivity.
Qed.

(** A Python int below 2^53 converts to a float with a 53-bit
    significand. *)
Lemma of_int_pos (z : Z) :
  1 <= z < 2 ^ 53 ->
  exists m e, of_int z = S754_finite false m e /\
              Zpos (digits2_pos m) = 53 /\ -52 <= e <= 0.
Proof.
  intros Hz. destruct z as [|p|p]; try lia.
  unfold of_int, binary_normalize, binary_round.
  generalize (digits2_bounds p). intros Hd.
  assert (Hd53 : Zpos (digits2_pos p) <= 53).
  { destruct (Z.leb_spec (Zpos (digits2_pos p)) 53); [assumption|].
    assert (2 ^ 53 <= 2 ^ (Zpos (digits2_pos p) - 1))
      by (apply Z.pow_le_mono_r; lia).
    lia. }
  rewrite fexp_eq by lia.
  unfold shl_align.
  destruct (Z.eq_dec (Zpos (digits2_pos p)) 53) as [Heq|Hne].
  - rewrite Heq.
    change (53 + 0 - 53 - 0) with 0. cbv iota.
    change (53 + 0 - 53) with 0.
    exists p, 0. split; [|split; [assumption|lia]].
    apply binary_round_aux_canonical; [assumption|lia].
  - set (k := Z.to_pos (53 - Zpos (digits2_pos p))).
    replace (Zpos (digits2_pos p) + 0 - 53 - 0) with (Zneg k)
      by (unfold k; lia).
    cbv iota.
    exists (Pos.iter xO p k), (Zpos (digits2_pos p) + 0 - 53).
    assert (Hk : Zpos (digits2_pos (Pos.iter xO p k)) = 53)
      by (rewrite digits2_iter_xO; unfold k; lia).
    split; [|split; [assumption|lia]].
    apply binary_round_aux_canonical; [assumption|lia].
Qed.

(** The quotient of two such numbers is finite and nonzero. *)
Lemma div_finite (s1 s2 : bool) (m1 m2 : positive) (e1 e2 : Z) :
  Zpos (digits2_pos m1) = 53 -> Zpos (digits2_pos m2) = 53 ->
  -52 <= e1 <= 0 -> -52 <= e2 <= 0 ->
  exists m e,
    (S754_finite s1 m1 e1 / S754_finite s2 m2 e2)%f64 =
    S754_finite (xorb s1 s2) m e.
Proof.
  intros Hd1 Hd2 He1 He2.
  unfold div, SFdiv, SFdiv_core_binary, Zdigits2.
  rewrite Hd1, Hd2, fexp_eq by lia.
  replace (Z.min (53 + e1 - (53 + e2) - 53) (e1 - e2))
    with (e1 - e2 - 53) by lia.
  replace (e1 - e2 - (e1 - e2 - 53)) with 53 by lia.
  cbv iota.
  generalize (digits2_bounds m1), (digits2_bounds m2).
  rewrite Hd1, Hd2. intros B1 B2.
  rewrite Z.shiftl_mul_pow2 by lia.
  generalize (Z.div_eucl_eq (Zpos m1 * 2 ^ 53) (Zpos m2) ltac:(lia)).
  generalize (Z.mod_pos_bound (Zpos m1 * 2 ^ 53) (Zpos m2) ltac:(lia)).
  unfold Z.modulo, Z.div.
  destruct (Z.div_eucl (Zpos m1 * 2 ^ 53) (Zpos m2)) as [q r].
  intros Hr Heq.
  change (53 - 1) with 52 in *.
  assert (Hq : 2 ^ 52 <= q < 2 ^ 54) by (split; nia).
  destruct q as [|q|q]; try lia.
  apply binary_round_aux_finite; [assumption|lia].
Qed.

(** Every rounded result carries the sign it was asked for. *)
Lemma binary_round_aux_sign (s : bool) (m e : Z) (l : location) :
  sign_is s (binary_round_aux prec emax s m e l).
Proof.
  unfold binary_round_aux.
  destruct (shr_fexp prec emax m e l) as [mrs1 e1].
  destruct (shr_fexp prec emax _ e1 loc_Exact) as [mrs2 e2].
  destruct (shr_m mrs2); [|destruct (e2 <=? emax - prec)|]; reflexivity.
Qed.

Lemma of_int_sign (z : Z) : 0 <= z -> sign_is false (of_int z).
Proof.
  intros Hz. destruct z as [|p|p]; [reflexivity| |lia].
  unfold of_int, binary_normalize, binary_round.
  destruct (shl_align p 0 _) as [mz ez]. apply binary_round_aux_sign.
Qed.

Lemma mul_sign (s1 s2 : bool) (x y : float) :
  sign_is s1 x -> sign_is s2 y -> sign_is (xorb s1 s2) (x * y)%f64.
Proof.
  destruct x, y; cbn; intros; subst;
    try reflexivity; try exact I; apply binary_round_aux_sign.
Qed.

(** Adding [0.0] changes nothing but [-0.0]. *)
Lemma add_zero_r (x : float) :
  sign_is false x -> (x + of_int 0)%f64 = x.
Proof.
  destruct x as [[|]| | |]; cbn; intros H; try reflexivity. discriminate.
Qed.

(** *** Sums that are not zero *)

Lemma shr_1_m (mrs : shr_record) :
  0 <= shr_m mrs -> shr_m (shr_1 mrs) = shr_m mrs / 2.
Proof.
  destruct mrs as [m r s]. cbn [shr_m]. intros Hm.
  destruct m as [|[p|p|]|p]; cbn [shr_1 shr_m]; try lia; try reflexivity.
  - apply Z.div_unique with (r := 1); lia.
  - apply Z.div_unique with (r := 0); lia.
Qed.

Lemma iter_pos_shr_1 (n : positive) (mrs : shr_record) :
  0 <= shr_m mrs ->
  shr_m (iter_pos shr_1 n mrs) = shr_m mrs / 2 ^ Zpos n.
Proof.
  revert mrs. induction n as [n IH|n IH|]; intros mrs Hm; cbn [iter_pos].
  - assert (H1 : 0 <= shr_m (shr_1 mrs))
      by (rewrite shr_1_m by assumption; apply Z.div_pos; lia).
    assert (H2 : 0 <= shr_m (iter_pos shr_1 n (shr_1 mrs)))
      by (rewrite IH by assumption; apply Z.div_pos; lia).
    replace (2 ^ Zpos n~1) with (2 * (2 ^ Zpos n * 2 ^ Zpos n))
      by (rewrite <- Z.pow_add_r, <- Z.pow_succ_r by lia; f_equal; lia).
    rewrite IH, IH, shr_1_m by assumption.
    rewrite !Z.div_div by lia. reflexivity.
  - assert (H2 : 0 <= shr_m (iter_pos shr_1 n mrs))
      by (rewrite IH by assumption; apply Z.div_pos; lia).
    replace (2 ^ Zpos n~0) with (2 ^ Zpos n * 2 ^ Zpos n)
      by (rewrite <- Z.pow_add_r by lia; f_equal; lia).
    rewrite IH, IH by assumption.
    rewrite !Z.div_div by lia. reflexivity.
  - rewrite shr_1_m by assumption. reflexivity.
Qed.

(** Rounding to precision keeps at least one bit of a positive
    significand whose exponent is not below the least one. *)
Lemma shr_fexp_keeps (q : positive) (e : Z) (l : location) :
  -1074 <= e ->
  exists mrs e' p,
    shr_fexp prec emax (Zpos q) e l = (mrs, e') /\
    shr_m mrs = Zpos p /\ -1074 <= e'.
Proof.
  intros He. unfold shr_fexp, shr, Zdigits2.
  generalize (digits2_bounds q). set (d := Zpos (digits2_pos q)).
  intros Hq.
  assert (Hd : 1 <= d) by (unfold d; lia).
  unfold fexp, SpecFloat.emin, prec, emax.
  destruct (Z.max (d + e - 53) (3 - 1024 - 53) - e) as [|n|n] eqn:En.
  - eexists _, _, q. split; [reflexivity|].
    rewrite shr_m_record_of_loc. split; [reflexivity|lia].
  - assert (Hm : 0 <= shr_m (shr_record_of_loc (Zpos q) l))
      by (rewrite shr_m_record_of_loc; lia).
    assert (Hn : Zpos n <= d - 1) by lia.
    assert (Hpow : 2 ^ Zpos n <= 2 ^ (d - 1))
      by (apply Z.pow_le_mono_r; lia).
    assert (Hge : 1 <= Zpos q / 2 ^ Zpos n).
    { apply Z.div_le_lower_bound; lia. }
    destruct (Zpos q / 2 ^ Zpos n) as [|p|p] eqn:Ep; try lia.
    eexists _, _, p. split; [reflexivity|].
    rewrite iter_pos_shr_1, shr_m_record_of_loc by assumption.
    split; [exact Ep|lia].
  - eexists _, _, q. split; [reflexivity|].
    rewrite shr_m_record_of_loc. split; [reflexivity|lia].
Qed.

Lemma binary_round_aux_nonzero (s : bool) (q : positive) (e : Z)
    (l : location) :
  -1074 <= e -> is_zero (binary_round_aux prec emax s (Zpos q) e l) = false.
Proof.
  intros He. unfold binary_round_aux.
  destruct (shr_fexp_keeps q e l He) as (mrs & e1 & p & -> & Hm & He1).
  rewrite Hm.
  destruct (round_nearest_even_pos p (loc_of_shr_record mrs)) as (r & -> & _).
  destruct (shr_fexp_keeps r e1 loc_Exact He1) as (mrs2 & e2 & p2 & -> & Hm2 & _).
  rewrite Hm2. destruct (e2 <=? emax - prec); reflexivity.
Qed.

Lemma pos_iter_xO (p k : positive) :
  Zpos (Pos.iter xO p k) = Zpos p * 2 ^ Zpos k.
Proof.
  induction k as [|k IH] using Pos.peano_ind.
  - cbn [Pos.iter]. lia.
  - rewrite Pos.iter_succ, Pos2Z.inj_xO, IH, Pos2Z.inj_succ, Z.pow_succ_r by lia.
    ring.
Qed.

Lemma shl_align_le (mx : positive) (ex ez : Z) :
  ez <= ex ->
  Zpos (fst (shl_align mx ex ez)) = Zpos mx * 2 ^ (ex - ez).
Proof.
  intros H. unfold shl_align.
  destruct (ez - ex) as [|n|n] eqn:E; cbn [fst]; try lia.
  - replace (ex - ez) with 0 by lia. lia.
  - rewrite pos_iter_xO. f_equal. f_equal. lia.
Qed.

Lemma binary_round_nonzero (s : bool) (p : positive) (e : Z) :
  -1074 <= e -> is_zero (binary_round prec emax s p e) = false.
Proof.
  intros He. unfold binary_round, shl_align.
  set (e' := fexp prec emax (Zpos (digits2_pos p) + e)).
  assert (He' : -1074 <= e')
    by (unfold e', fexp, SpecFloat.emin, prec, emax; lia).
  destruct (e' - e); apply binary_round_aux_nonzero; assumption.
Qed.

(** In binary64 the sum [1 + r] is a zero only for [r = -1]. *)
Lemma one_plus_nonzero (r : float) :
  valid_binary prec emax r = true ->
  eqb r (of_int (-1)) = false ->
  is_zero (of_int 1 + r)%f64 = false.
Proof.
  change (of_int 1) with (S754_finite false 4503599627370496 (-52)).
  change (of_int (-1)) with (S754_finite true 4503599627370496 (-52)).
  destruct r as [s|s| |s m e]; try reflexivity.
  cbn [valid_binary]. unfold bounded, canonical_mantissa.
  intros Hv Hne. apply andb_prop in Hv. destruct Hv as [Hc _].
  apply Z.eqb_eq in Hc.
  generalize (digits2_bounds m). set (d := Zpos (digits2_pos m)) in *.
  intros Hm.
  unfold fexp, SpecFloat.emin, prec, emax in Hc.
  assert (Hd : d <= 53) by lia.
  assert (He : -1074 <= e) by lia.
  assert (Hm53 : Zpos m < 2 ^ 53).
  { assert (2 ^ d <= 2 ^ 53) by (apply Z.pow_le_mono_r; lia). lia. }
  unfold add, SFadd.
  set (ez := Z.min (-52) e).
  rewrite !shl_align_le by (unfold ez; lia).
  change (cond_Zopp false (4503599627370496 * 2 ^ (-52 - ez)))
    with (4503599627370496 * 2 ^ (-52 - ez)).
  assert (Hsum : 4503599627370496 * 2 ^ (-52 - ez) +
                 cond_Zopp s (Zpos m * 2 ^ (e - ez)) <> 0).
  { assert (Hp1 : 0 < 2 ^ (-52 - ez)) by (apply Z.pow_pos_nonneg; unfold ez; lia).
    assert (Hp2 : 0 < 2 ^ (e - ez)) by (apply Z.pow_pos_nonneg; unfold ez; lia).
    destruct s; cbn [cond_Zopp]; [|nia].
    intros Hz.
    destruct (Z.le_gt_cases (-52) e) as [Hge|Hlt].
    - assert (Hez : ez = -52) by (unfold ez; lia).
      rewrite Hez in *. replace (-52 - -52) with 0 in Hz by lia.
      assert (Hd53 : d = 53) by lia.
      rewrite Hd53 in Hm. change (53 - 1) with 52 in Hm.
      change (2 ^ 0) with 1 in Hz.
      assert (He52 : e = -52).
      { destruct (Z.eq_dec e (-52)); [assumption|exfalso].
        assert (2 ^ 1 <= 2 ^ (e - -52)) by (apply Z.pow_le_mono_r; lia).
        change (2 ^ 1) with 2 in *. change (2 ^ 52) with 4503599627370496 in Hm.
        nia. }
      subst e. replace (-52 - -52) with 0 in Hz by lia.
      change (2 ^ 0) with 1 in Hz.
      assert (Hmm : m = 4503599627370496%positive) by lia.
      subst m. discriminate Hne.
    - assert (Hez : ez = e) by (unfold ez; lia).
      rewrite Hez in *. replace (e - e) with 0 in Hz by lia.
      change (2 ^ 0) with 1 in Hz.
      assert (2 ^ 1 <= 2 ^ (-52 - e)) by (apply Z.pow_le_mono_r; lia).
      change (2 ^ 1) with 2 in *. change (2 ^ 53) with 9007199254740992 in Hm53.
      nia. }
  unfold binary_normalize.
  destruct (4503599627370496 * 2 ^ (-52 - ez) +
            cond_Zopp s (Zpos m * 2 ^ (e - ez))) as [|p|p];
    [congruence| |]; apply binary_round_nonzero; unfold ez; lia.
Qed.

(* ================================================================== *)
(** ** [calculate_metrics] on a trajectory *)

Lemma calculate_metrics_pairs (self : Model) (initial : State)
    (rest : list State) :
  calculate_metrics self (as_array (initial :: rest)) =
  Ok (metrics_of initial (final_of initial rest)).
Proof.
  unfold calculate_metrics, Np.index2.
  change (as_array (initial :: rest))
    with (row_of initial :: as_array rest).
  rewrite index_last, index_first.
  change (row_of initial :: as_array rest)
    with (as_array (initial :: rest)).
  unfold as_array. rewrite last_map. fold (final_of initial rest).
  destruct (final_of initial rest) as [f0 f1], initial as [i0 i1].
  reflexivity.
Qed.

Lemma metric_pairs (self : Model) (initial : State) (rest : list State)
    (name : string) :
  metric self (as_array (initial :: rest)) name =
  Ok (get (metrics_of initial (final_of initial rest)) name).
Proof.
  unfold metric. rewrite calculate_metrics_pairs. reflexivity.
Qed.

(* ================================================================== *)
(** ** The dynamics function *)

(** C1: for a state [region1, region2] with neither level equal to -1 and
    any parameters a, b, c, d, the dynamics function returns exactly the
    pair
      a * region1 * (1 - region1/100) + b * region1 * region2 / (1 + region2),
      c * region2 * (1 - region2/100) + d * region1 * region2 / (1 + region1)
    evaluated from left to right in binary64; and for binary64 levels
    neither divisor 1 + region2, 1 + region1 is then a zero. *)
Theorem cooperation_dynamics_formula
    (self : Model) (region1 region2 t a b c d : float)
    (H1 : eqb region1 (of_int (-1)) = false)
    (H2 : eqb region2 (of_int (-1)) = false) :
  cooperation_dynamics self [region1; region2] t a b c d =
  Ok [ ((a * region1) * (of_int 1 - (region1 / of_int 100)) +
        ((b * region1) * region2) / (of_int 1 + region2))%f64;
       ((c * region2) * (of_int 1 - (region2 / of_int 100)) +
        ((d * region1) * region2) / (of_int 1 + region1))%f64 ] /\
  (is_binary64 region2 = true -> is_zero (of_int 1 + region2)%f64 = false) /\
  (is_binary64 region1 = true -> is_zero (of_int 1 + region1)%f64 = false).
Proof.
  split; [reflexivity|].
  split; intros Hv; apply one_plus_nonzero; assumption.
Qed.

Lemma cooperation_dynamics_formula_witness :
  eqb (of_int 20) (of_int (-1)) = false /\
  is_binary64 (of_int 20) = true /\
  cooperation_dynamics __init__ [of_int 20; of_int 20] (of_int 0)
    (literal 3 (-1)) (literal 2 (-1)) (literal 4 (-1)) (literal 1 (-1)) =
  Ok [ S754_finite false 4846731027551106 (-49);
       S754_finite false 4675165327460801 (-49) ] /\
  is_zero (of_int 1 + of_int 20)%f64 = false.
Proof.
  split; [reflexivity|]. split; [reflexivity|].
  destruct (cooperation_dynamics_formula __init__ (of_int 20) (of_int 20)
              (of_int 0) (literal 3 (-1)) (literal 2 (-1)) (literal 4 (-1))
              (literal 1 (-1)) eq_refl eq_refl) as (Hf & Hz & _).
  split; [rewrite Hf; vm_compute; reflexivity | exact (Hz eq_refl)].
Defined.

(** C10: the derivative does not depend on the time argument: at the same
    state and parameters two calls return the same pair (or raise the same
    exception) whatever their times. *)
Theorem cooperation_dynamics_autonomous
    (self : Model) (state : list float) (t t' a b c d : float) :
  cooperation_dynamics self state t a b c d =
  cooperation_dynamics self state t' a b c d.
Proof.
  unfold cooperation_dynamics. destruct (unpack2 state); reflexivity.
Qed.

(* ================================================================== *)
(** ** The metrics *)

(** [-0.0] is the neutral element of the addition, bit for bit. *)
Lemma negative_zero_add (x : float) : (S754_zero true + x)%f64 = x.
Proof. destruct x as [[|]|[|]| |]; reflexivity. Qed.

(** The sum of a row of two entries. *)
Lemma sum_pair (x y : float) : Np.sum [x; y] = (of_int 0 + (x + y))%f64.
Proof.
  unfold Np.sum. cbn [List.length Np.pairwise_sum Nat.ltb Nat.leb fold_left].
  rewrite negative_zero_add. reflexivity.
Qed.

(** Starting a sum from [0.0] changes at most the sign of a zero. *)
Lemma zero_add_same (x : float) : same_up_to_zero_sign (of_int 0 + x)%f64 x.
Proof.
  unfold same_up_to_zero_sign.
  destruct x as [[|]|[|]| |]; auto.
Qed.

Lemma sub_same (x x' y y' : float) :
  same_up_to_zero_sign x x' -> same_up_to_zero_sign y y' ->
  same_up_to_zero_sign (x - y)%f64 (x' - y')%f64.
Proof.
  unfold same_up_to_zero_sign.
  intros [->|[Hx Hx']] [->|[Hy Hy']].
  - left. reflexivity.
  - destruct y as [[|]| | |]; try discriminate;
      destruct y' as [[|]| | |]; try discriminate;
      destruct x' as [[|]|[|]| |]; auto.
  - destruct x as [[|]| | |]; try discriminate;
      destruct x' as [[|]| | |]; try discriminate;
      destruct y' as [[|]|[|]| |]; auto.
  - destruct x as [[|]| | |]; try discriminate;
      destruct x' as [[|]| | |]; try discriminate;
      destruct y as [[|]| | |]; try discriminate;
      destruct y' as [[|]| | |]; try discriminate; auto.
Qed.



(** C3, as the program behaves: when a component of the first entry is a
    zero, computing the metrics raises nothing; the Synergy Index it
    returns is the binary64 quotient, which is then NaN or an infinity and
    never a finite number. *)
Theorem synergy_index_zero_initial (self : Model) (initial : State)
    (rest : list State)
    (Hzero : is_zero (fst initial) = true \/ is_zero (snd initial) = true) :
  let final := final_of initial rest in
  let quotient := (fst final * snd final / (fst initial * snd initial))%f64 in
  calculate_metrics self (as_array (initial :: rest)) =
    Ok (metrics_of initial final) /\
  metric self (as_array (initial :: rest)) "Synergy Index" =
    Ok (Some quotient) /\
  is_finite quotient = false.
Proof.
  intros final quotient. split; [apply calculate_metrics_pairs|].
  split; [rewrite metric_pairs; reflexivity|].
  apply div_zero_not_finite.
  destruct Hzero as [H|H]; [apply mul_zero_l | apply mul_zero_r]; exact H.
Qed.

Lemma synergy_index_zero_initial_witness :
  (is_zero (fst origin) = true \/ is_zero (snd origin) = true) /\
  metric __init__ (as_array [origin; start20]) "Synergy Index" =
    Ok (Some (S754_infinity false)) /\
  is_finite (S754_infinity false) = false.
Proof.
  split; [left; reflexivity|].
  exact (proj2 (synergy_index_zero_initial __init__ origin [start20]
                  (or_introl eq_refl))).
Defined.

(** C3 fails as stated: on the trajectory that stays at [0, 0] the metrics
    are returned, with NaN as the Synergy Index, and no exception is
    raised. *)
Lemma synergy_index_zero_returns_nan :
  calculate_metrics __init__ (as_array [origin; origin]) =
    Ok [("Region 1 Final Level"%string, of_int 0);
        ("Region 2 Final Level"%string, of_int 0);
        ("Total Growth"%string, of_int 0);
        ("Synergy Index"%string, nan)] /\
  calculate_metrics __init__ (as_array [origin; origin]) <>
    Raise ZeroDivisionError.
Proof. split; [reflexivity | discriminate]. Qed.

(** C5, as the program behaves: for a trajectory with at least one entry
    the Synergy Index is the binary64 quotient
    (region1_final * region2_final) / (region1_initial * region2_initial);
    when the last entry equals the first and the product of the initial
    components is a finite nonzero number, it is exactly 1.0. *)
Theorem synergy_index_quotient (self : Model) (initial : State)
    (rest : list State) :
  let final := final_of initial rest in
  metric self (as_array (initial :: rest)) "Synergy Index" =
    Ok (Some (fst final * snd final / (fst initial * snd initial))%f64) /\
  (final = initial ->
   is_finite_nonzero (fst initial * snd initial)%f64 = true ->
   metric self (as_array (initial :: rest)) "Synergy Index" =
     Ok (Some (of_int 1))).
Proof.
  intros final. rewrite metric_pairs. fold final.
  split; [reflexivity|].
  intros Hsame Hprod. rewrite Hsame.
  cbn [metrics_of get String.eqb Ascii.eqb Bool.eqb fst snd].
  rewrite (div_self _ Hprod). reflexivity.
Qed.

Lemma synergy_index_quotient_witness :
  final_of start20 [start20] = start20 /\
  is_finite_nonzero (fst start20 * snd start20)%f64 = true /\
  metric __init__ (as_array [start20; start20]) "Synergy Index" =
    Ok (Some (of_int 1)).
Proof.
  split; [reflexivity|]. split; [reflexivity|].
  exact (proj2 (synergy_index_quotient __init__ start20 [start20])
               eq_refl eq_refl).
Defined.

(** C5 fails as stated: both components of [1e200, 1e200] are nonzero and
    the trajectory ends where it starts, yet their product overflows and
    the Synergy Index is NaN, not 1.0. *)
Lemma synergy_index_overflow :
  eqb (fst huge) (of_int 0) = false /\
  eqb (snd huge) (of_int 0) = false /\
  final_of huge [huge] = huge /\
  metric __init__ (as_array [huge; huge]) "Synergy Index" = Ok (Some nan) /\
  eqb nan (of_int 1) = false.
Proof. repeat split; reflexivity. Qed.

(* ================================================================== *)
(** ** The time grid *)

Lemma set_last_app (l : Np.array1) (x stop : float) :
  Np.set_last (l ++ [x]) stop = l ++ [stop].
Proof.
  unfold Np.set_last. destruct (l ++ [x]) eqn:E.
  - destruct l; discriminate.
  - rewrite <- E, removelast_last. reflexivity.
Qed.

(** [linspace] in closed form, when the step does not underflow. *)
Lemma linspace_points (start stop : float) (num : Z) :
  2 <= num ->
  let step := ((stop - start) / of_int (num - 1))%f64 in
  eqb step (of_int 0) = false ->
  Np.linspace start stop num =
  Ok (map (fun i => (of_int (Z.of_nat i) * step + start)%f64)
          (seq 0 (Z.to_nat (num - 1))) ++ [stop]).
Proof.
  intros Hnum step Hstep. unfold Np.linspace.
  assert (H0 : (num <? 0) = false) by (apply Z.ltb_ge; lia).
  assert (H1 : (0 <? num - 1) = true) by (apply Z.ltb_lt; lia).
  assert (H2 : (1 <? num) = true) by (apply Z.ltb_lt; lia).
  rewrite H0, H1, H2. fold step. rewrite Hstep.
  unfold Np.arange.
  replace (Z.to_nat num) with (S (Z.to_nat (num - 1))) by lia.
  rewrite seq_S, !map_app. cbn [map]. rewrite set_last_app, !map_map.
  reflexivity.
Qed.

(** The step of the grid is a positive finite number. *)
Lemma grid_step_finite (years : Z) :
  1 <= years -> years * 12 <= 2 ^ 53 ->
  exists m e,
    ((of_int years - of_int 0) / of_int (years * 12 - 1))%f64 =
    S754_finite false m e /\
    (of_int years / of_int (years * 12 - 1))%f64 = S754_finite false m e.
Proof.
  intros H1 H2.
  destruct (of_int_pos years ltac:(lia)) as (m1 & e1 & -> & Hd1 & He1).
  destruct (of_int_pos (years * 12 - 1) ltac:(lia))
    as (m2 & e2 & -> & Hd2 & He2).
  change (S754_finite false m1 e1 - of_int 0)%f64
    with (S754_finite false m1 e1).
  destruct (div_finite false false m1 m2 e1 e2 Hd1 Hd2 He1 He2)
    as (m & e & ->).
  exists m, e. split; reflexivity.
Qed.

Lemma time_points_closed (years : Z) :
  1 <= years -> years * 12 <= 2 ^ 53 ->
  let step := (of_int years / of_int (years * 12 - 1))%f64 in
  time_points years =
  Ok (map (fun i => (of_int (Z.of_nat i) * step)%f64)
          (seq 0 (Z.to_nat (years * 12 - 1))) ++ [of_int years]).
Proof.
  intros H1 H2 step. unfold time_points.
  destruct (grid_step_finite years H1 H2) as (m & e & Hs & Hs').
  rewrite linspace_points by (try lia; rewrite Hs; reflexivity).
  rewrite Hs. unfold step. rewrite Hs'.
  do 2 f_equal. apply map_ext. intros i.
  apply add_zero_r.
  apply (mul_sign false false); [apply of_int_sign; lia | reflexivity].
Qed.

(** C7, as the program behaves: for a horizon of [years] >= 1 units (with
    12 * years at most 2^53) the simulation hands [odeint] a grid of
    exactly 12 * years points; it starts at 0 and ends at the horizon; its
    step is years / (12 * years - 1), the i-th point before the last being
    i * step in binary64; for the default 50 years these are 600 strictly
    increasing points. *)
Theorem time_grid_linspace
    (odeint : (list float -> float -> list float -> result (list float)) ->
              list float -> Np.array1 -> list float -> result Np.array2)
    (self : Model) (years : Z)
    (Hyears : 1 <= years) (Hexact : years * 12 <= 2 ^ 53) :
  let n := years * 12 in
  let step := (of_int years / of_int (n - 1))%f64 in
  exists t : Np.array1,
    time_points years = Ok t /\
    simulate_cooperation odeint self years =
      (solution <- odeint (call_with_args (cooperation_dynamics self))
                          initial_state t (params self) ;;
       Ok (t, solution)) /\
    Z.of_nat (List.length t) = n /\
    index t 0 = Ok (of_int 0) /\
    index t (-1) = Ok (of_int years) /\
    (forall i, 0 <= i < n - 1 -> index t i = Ok (of_int i * step)%f64) /\
    is_finite_nonzero step = true /\
    (years = default_years -> n = 600 /\ increasing t = true).
Proof.
  intros n step.
  pose proof (time_points_closed years Hyears Hexact) as Ht.
  cbv zeta in Ht. fold n step in Ht.
  set (body := map (fun i => (of_int (Z.of_nat i) * step)%f64)
                   (seq 0 (Z.to_nat (n - 1)))) in Ht.
  exists (body ++ [of_int years]).
  assert (Hlen : List.length body = Z.to_nat (n - 1))
    by (unfold body; rewrite length_map, length_seq; reflexivity).
  destruct (grid_step_finite years Hyears Hexact) as (m & e & _ & Hs).
  fold n step in Hs.
  assert (Hnth : forall i, 0 <= i < n - 1 ->
            nth_error (body ++ [of_int years]) (Z.to_nat i) =
            Some (of_int i * step)%f64).
  { intros i Hi. rewrite nth_error_app1 by lia.
    unfold body. rewrite nth_error_map, nth_error_seq.
    assert (Hlt : (Z.to_nat i <? Z.to_nat (n - 1))%nat = true)
      by (apply Nat.ltb_lt; lia).
    rewrite Hlt. cbn [option_map Nat.add]. rewrite Z2Nat.id by lia.
    reflexivity. }
  assert (Hidx : forall i, 0 <= i < n - 1 ->
            index (body ++ [of_int years]) i = Ok (of_int i * step)%f64).
  { intros i Hi. unfold index.
    assert (Hneg : (i <? 0) = false) by (apply Z.ltb_ge; lia).
    assert (Hlo : (0 <=? i) = true) by (apply Z.leb_le; lia).
    assert (Hhi : (i <? Z.of_nat (List.length (body ++ [of_int years])))
                  = true).
    { apply Z.ltb_lt. rewrite length_app, Hlen. cbn [List.length]. lia. }
    rewrite Hneg, Hlo, Hhi, (Hnth i Hi). reflexivity. }
  split; [exact Ht|].
  split; [unfold simulate_cooperation; fold (time_points years);
          rewrite Ht; reflexivity|].
  split; [rewrite length_app, Hlen; cbn [List.length]; lia|].
  split.
  { rewrite (Hidx 0) by lia. rewrite Hs. reflexivity. }
  split.
  { destruct body as [|x body'] eqn:E.
    - cbn [List.length] in Hlen. lia.
    - change ((x :: body') ++ [of_int years])
        with (x :: (body' ++ [of_int years])).
      rewrite index_last.
      change (x :: body' ++ [of_int years])
        with ((x :: body') ++ [of_int years]).
      rewrite last_last. reflexivity. }
  split; [exact Hidx|].
  split; [rewrite Hs; reflexivity|].
  intros Hdef. split; [unfold n; rewrite Hdef; reflexivity|].
  unfold body, step, n. rewrite Hdef. vm_compute. reflexivity.
Qed.

Lemma time_grid_linspace_witness :
  1 <= default_years /\ default_years * 12 <= 2 ^ 53 /\
  exists t : Np.array1,
    time_points default_years = Ok t /\
    Z.of_nat (List.length t) = 600 /\
    index t 0 = Ok (of_int 0) /\
    index t (-1) = Ok (of_int 50) /\
    index t 1 = Ok (S754_finite false 6014824210177624 (-56)) /\
    increasing t = true.
Proof.
  assert (H1 : 1 <= default_years) by (unfold default_years; lia).
  assert (H2 : default_years * 12 <= 2 ^ 53) by (unfold default_years; lia).
  split; [exact H1|]. split; [exact H2|].
  destruct (time_grid_linspace frozen_odeint __init__ default_years H1 H2)
    as (t & Ht & _ & Hlen & Hfirst & Hlast & Hidx & _ & Hdef).
  exists t. split; [exact Ht|]. split; [exact Hlen|].
  split; [exact Hfirst|]. split; [exact Hlast|].
  split; [exact (Hidx 1 ltac:(unfold default_years; lia))|].
  exact (proj2 (Hdef eq_refl)).
Defined.

(** C7 fails as stated: in the default grid the second point is
    50/599 = 0.0834..., so the first gap is strictly more than 1/12. *)
Lemma time_grid_gap_not_twelfth :
  (t <- time_points default_years ;;
   t0 <- index t 0 ;;
   t1 <- index t 1 ;;
   Ok ((t1 - t0)%f64,
       eqb (t1 - t0)%f64 (of_int 1 / of_int 12)%f64,
       ltb (of_int 1 / of_int 12)%f64 (t1 - t0)%f64)) =
  Ok ((of_int 50 / of_int 599)%f64, false, true).
Proof. vm_compute. reflexivity. Qed.

(* ================================================================== *)
(** ** The arguments of the default run *)

(** C2, as the program behaves: [odeint] calls the dynamics function with
    the tuple (tech_transfer_rate, trade_growth_rate, collaboration_factor,
    resource_constraint) as a, b, c, d; in the default run
    a = technology transfer rate = 0.3, b = trade growth rate = 0.2,
    c = collaboration factor = 0.4 and d = resource constraint = 0.1. *)
Theorem default_run_arguments
    (odeint : (list float -> float -> list float -> result (list float)) ->
              list float -> Np.array1 -> list float -> result Np.array2) :
  (forall self y t,
     call_with_args (cooperation_dynamics self) y t (params self) =
     cooperation_dynamics self y t
       (tech_transfer_rate self) (trade_growth_rate self)
       (collaboration_factor self) (resource_constraint self)) /\
  simulate_cooperation odeint __init__ default_years =
    (t <- time_points default_years ;;
     solution <- odeint (call_with_args (cooperation_dynamics __init__))
                        initial_state t
                        [literal 3 (-1); literal 2 (-1);
                         literal 4 (-1); literal 1 (-1)] ;;
     Ok (t, solution)) /\
  (forall y t,
     call_with_args (cooperation_dynamics __init__) y t (params __init__) =
     cooperation_dynamics __init__ y t
       (literal 3 (-1)) (literal 2 (-1)) (literal 4 (-1)) (literal 1 (-1))).
Proof. repeat split. Qed.

(** C2 fails as stated: the arguments of the default run are not
    (0.3, 0.4, 0.2, 0.1), and at the initial state the derivative the
    program computes differs from the one those arguments would give. *)
Lemma default_run_not_claimed_arguments :
  params __init__ <>
    [literal 3 (-1); literal 4 (-1); literal 2 (-1); literal 1 (-1)] /\
  call_with_args (cooperation_dynamics __init__) initial_state (of_int 0)
    (params __init__) <>
  cooperation_dynamics __init__ initial_state (of_int 0)
    (literal 3 (-1)) (literal 4 (-1)) (literal 2 (-1)) (literal 1 (-1)).
Proof. split; vm_compute; intros H; discriminate H. Qed.

(* ================================================================== *)
(** ** The report *)

Lemma append_assoc (a b c : string) :
  ((a ++ b) ++ c)%string = (a ++ (b ++ c))%string.
Proof. induction a as [|x a IH]; cbn; [reflexivity | rewrite IH; reflexivity]. Qed.

Lemma skip_digits_app (a b : string) :
  skip_digits a = EmptyString -> skip_digits (a ++ b)%string = skip_digits b.
Proof.
  induction a as [|x a IH]; cbn; [reflexivity|].
  destruct (is_digit x); [exact IH | discriminate].
Qed.

Lemma skip_digits_uint (u : Decimal.uint) :
  skip_digits (NilEmpty.string_of_uint u) = EmptyString.
Proof. induction u; cbn; assumption || reflexivity. Qed.

(** [str(n)] is a nonempty string of digits. *)
Lemma decimal_digits (n : Z) :
  skip_digits (Fmt.decimal n) = EmptyString /\
  exists c rest, Fmt.decimal n = String c rest /\ is_digit c = true.
Proof.
  unfold Fmt.decimal, NilZero.string_of_uint.
  destruct (N.to_uint (Z.to_N n)) as [|u|u|u|u|u|u|u|u|u|u];
    (split; [try reflexivity; apply (skip_digits_uint (_ u))
            | eexists _, _; split; reflexivity]).
Qed.

Lemma digit_is_digit (d : Z) : 0 <= d <= 9 -> is_digit (Fmt.digit d) = true.
Proof.
  intros H.
  assert (Hd : d = 0 \/ d = 1 \/ d = 2 \/ d = 3 \/ d = 4 \/
               d = 5 \/ d = 6 \/ d = 7 \/ d = 8 \/ d = 9) by lia.
  repeat (destruct Hd as [->|Hd]; [reflexivity|]). subst d. reflexivity.
Qed.

Lemma fixed2_two_decimals (n : Z) :
  unsigned_two_decimals (Fmt.fixed2 n) = true /\
  (forall s, Fmt.fixed2 n <> String "-" s).
Proof.
  unfold Fmt.fixed2.
  destruct (decimal_digits (n / 100)) as (Hskip & c & rest & Hdec & Hc).
  assert (H1 : is_digit (Fmt.digit (n mod 100 / 10)) = true).
  { apply digit_is_digit.
    generalize (Z.mod_pos_bound n 100 ltac:(lia)). intros Hb.
    assert (n mod 100 / 10 < 10) by (apply Z.div_lt_upper_bound; lia).
    split; [apply Z.div_pos; lia | lia]. }
  assert (H2 : is_digit (Fmt.digit (n mod 10)) = true).
  { apply digit_is_digit.
    generalize (Z.mod_pos_bound n 10 ltac:(lia)). lia. }
  split.
  - unfold unsigned_two_decimals.
    rewrite (skip_digits_app _ _ Hskip).
    rewrite Hdec at 1. cbn [append]. rewrite Hc.
    cbn [skip_digits append is_digit nat_of_ascii].
    change (is_digit ".") with false. cbv iota.
    rewrite H1, H2. reflexivity.
  - intros s. rewrite Hdec. cbn [append]. intros E.
    injection E as -> _. discriminate Hc.
Qed.

(** [.2f] writes a finite number with exactly two decimals, and the other
    values as [nan], [inf] and [-inf]. *)
Lemma format_2f_shape (x : float) :
  if is_finite x then two_decimals (Fmt.format_2f x) = true
  else In (Fmt.format_2f x) ["nan"; "inf"; "-inf"]%string.
Proof.
  assert (Hsign : forall s n,
            two_decimals (Fmt.sign s ++ Fmt.fixed2 n)%string = true).
  { intros s n. destruct (fixed2_two_decimals n) as [Hu Hn].
    destruct s; cbn [Fmt.sign append].
    - exact Hu.
    - unfold two_decimals.
      destruct (Fmt.fixed2 n) as [|c r] eqn:E; [exact Hu|].
      destruct (Ascii.eqb_spec c "-") as [->|Hc];
        [exfalso; exact (Hn r eq_refl)|].
      destruct c as [[|] [|] [|] [|] [|] [|] [|] [|]];
        try exact Hu; congruence. }
  destruct x as [s|[|]| |s m e]; cbn [is_finite Fmt.format_2f].
  - apply Hsign.
  - right; right; left; reflexivity.
  - right; left; reflexivity.
  - left; reflexivity.
  - apply Hsign.
Qed.

Lemma append_empty_r (a : string) : (a ++ "")%string = a.
Proof. induction a as [|c a IH]; cbn; congruence. Qed.

Lemma fold_left_metric_lines (metrics : dict float) (head : string) :
  fold_left (fun report item => (report ++ metric_line item)%string)
            metrics head =
  (head ++ unlines (map (fun item =>
                           fst item ++ ": " ++ Fmt.format_2f (snd item))
                        metrics))%string.
Proof.
  revert head. induction metrics as [|item metrics IH]; intros head.
  - cbn. rewrite append_empty_r. reflexivity.
  - cbn [fold_left map unlines fold_right]. rewrite IH.
    unfold metric_line, unlines. rewrite !append_assoc. reflexivity.
Qed.

(** The report lists the metrics in the insertion order of the
    dictionary, one line each, after a fixed head. *)
Lemma generate_report_items (self : Model) (metrics : dict float) :
  generate_report self metrics =
  (generate_report self [] ++
   unlines (map (fun item =>
                   fst item ++ ": " ++ Fmt.format_2f (snd item))
                (items metrics)))%string.
Proof.
  unfold generate_report, items. cbn [fold_left].
  apply fold_left_metric_lines.
Qed.

(** C9, as the program behaves: for the four metrics in the order
    [calculate_metrics] inserts them, the report is the title, its
    underline, an empty line, the heading of the parameters, exactly four
    parameter lines, an empty line, the heading of the results and exactly
    four metric lines in the order Region 1 Final Level, Region 2 Final
    Level, Total Growth, Synergy Index; every finite number is written with
    exactly two decimals, and NaN and the infinities are written [nan],
    [inf] and [-inf]. *)
Theorem generate_report_layout (self : Model)
    (region1_final region2_final total_growth synergy_index : float) :
  generate_report self
    (four_metrics region1_final region2_final total_growth synergy_index) =
  unlines
    ["International Cooperation Analysis";
     "===============================";
     "";
     "Model Parameters:";
     "Technology Transfer Rate: " ++ Fmt.format_2f (tech_transfer_rate self);
     "Trade Growth Rate: " ++ Fmt.format_2f (trade_growth_rate self);
     "Collaboration Factor: " ++ Fmt.format_2f (collaboration_factor self);
     "Resource Constraint: " ++ Fmt.format_2f (resource_constraint self);
     "";
     "Results:";
     "Region 1 Final Level: " ++ Fmt.format_2f region1_final;
     "Region 2 Final Level: " ++ Fmt.format_2f region2_final;
     "Total Growth: " ++ Fmt.format_2f total_growth;
     "Synergy Index: " ++ Fmt.format_2f synergy_index]%string /\
  (forall x : float,
     if is_finite x then two_decimals (Fmt.format_2f x) = true
     else In (Fmt.format_2f x) ["nan"; "inf"; "-inf"]%string).
Proof.
  split; [|exact format_2f_shape].
  unfold generate_report, four_metrics, items, metric_line, unlines.
  cbn [fold_left fold_right fst snd].
  rewrite !append_assoc. reflexivity.
Qed.

(** C9 fails as stated: the metrics of the trajectory that stays at
    [0, 0] hold the four entries, yet the last metric line of their report
    is [Synergy Index: nan], which has no decimals. *)
Lemma generate_report_nan_line :
  calculate_metrics __init__ (as_array [origin; origin]) =
    Ok (four_metrics (of_int 0) (of_int 0) (of_int 0) nan) /\
  generate_report __init__ (four_metrics (of_int 0) (of_int 0) (of_int 0) nan) =
  unlines
    ["International Cooperation Analysis";
     "===============================";
     "";
     "Model Parameters:";
     "Technology Transfer Rate: 0.30";
     "Trade Growth Rate: 0.20";
     "Collaboration Factor: 0.40";
     "Resource Constraint: 0.10";
     "";
     "Results:";
     "Region 1 Final Level: 0.00";
     "Region 2 Final Level: 0.00";
     "Total Growth: 0.00";
     "Synergy Index: nan"]%string /\
  Fmt.format_2f nan = "nan"%string /\
  two_decimals "nan" = false.
Proof. repeat split; vm_compute; reflexivity. Qed.

(* ================================================================== *)
(** ** Further facts and examples *)

(** Exchanging (a, b) with (c, d) and the two levels exchanges the two
    derivatives only up to rounding: the coupling term is computed as
    (d * region1) * region2 on one side and (d * region2) * region1 on the
    other.  At the state [3, 7] the results differ in the last bit. *)
Lemma cooperation_dynamics_swap_rounding :
  cooperation_dynamics __init__ [of_int 3; of_int 7] (of_int 0)
    (literal 3 (-1)) (literal 2 (-1)) (literal 4 (-1)) (literal 1 (-1)) =
  Ok [S754_finite false 6296032279063954 (-52);
      S754_finite false 7045881617021142 (-51)] /\
  cooperation_dynamics __init__ [of_int 7; of_int 3] (of_int 0)
    (literal 4 (-1)) (literal 1 (-1)) (literal 3 (-1)) (literal 2 (-1)) =
  Ok [S754_finite false 7045881617021141 (-51);
      S754_finite false 6296032279063953 (-52)].
Proof. split; vm_compute; reflexivity. Qed.

(** On the diagonal, where the default run starts, the exchange is exact. *)
Lemma cooperation_dynamics_swap_diagonal
    (self : Model) (x t a b c d : float) :
  cooperation_dynamics self [x; x] t c d a b =
  (ds <- cooperation_dynamics self [x; x] t a b c d ;; Ok (rev ds)).
Proof. reflexivity. Qed.

(** A state that does not hold two levels cannot be unpacked. *)
Lemma cooperation_dynamics_unpack (self : Model) (t a b c d : float) :
  cooperation_dynamics self [] t a b c d = Raise ValueError /\
  (forall x, cooperation_dynamics self [x] t a b c d = Raise ValueError) /\
  (forall x y z l,
     cooperation_dynamics self (x :: y :: z :: l) t a b c d =
     Raise ValueError).
Proof. repeat split. Qed.

(** The level -1 is not guarded: the coupling term divides by zero and the
    derivative is an infinity. *)
Example cooperation_dynamics_singularity :
  cooperation_dynamics __init__ [of_int 20; of_int (-1)] (of_int 0)
    (literal 3 (-1)) (literal 2 (-1)) (literal 4 (-1)) (literal 1 (-1)) =
  Ok [S754_infinity true; S754_finite true 8993473998733768 (-54)].
Proof. vm_compute. reflexivity. Qed.

(** The sum of a row starts from [0.0]: negative zeros add up to
    [0.0].  A row of nine entries goes through the eight running sums,
    which keep the small entries a plain sum from left to right would
    lose. *)
Example sum_rows :
  Np.sum [S754_zero true; S754_zero true] = S754_zero false /\
  Np.sum [] = S754_zero false /\
  Np.sum (of_int (10 ^ 16) :: repeat (of_int 1) 8) = of_int (10 ^ 16 + 8) /\
  fold_left add (repeat (of_int 1) 8) (of_int (10 ^ 16)) = of_int (10 ^ 16).
Proof. repeat split; vm_compute; reflexivity. Qed.

(** The metrics of an empty trajectory cannot be computed. *)
Example calculate_metrics_empty (self : Model) :
  calculate_metrics self [] = Raise IndexError.
Proof. reflexivity. Qed.

(** The default parameters, as the report prints them. *)
Example format_2f_parameters :
  map Fmt.format_2f (params __init__) = ["0.30"; "0.20"; "0.40"; "0.10"]%string.
Proof. vm_compute. reflexivity. Qed.

(** Ties of the exact binary value go to the even digit; the sign of a
    negative number is kept when it rounds to zero. *)
Example format_2f_rounding :
  map Fmt.format_2f
    [literal 125 (-3); literal 375 (-3); literal 2675 (-3);
     literal (-1) (-3); of_int 12345; S754_infinity true] =
  ["0.12"; "0.38"; "2.67"; "-0.00"; "12345.00"; "-inf"]%string.
Proof. vm_compute. reflexivity. Qed.

(** A horizon of zero years gives an empty grid, a negative one an error. *)
Example time_points_degenerate :
  time_points 0 = Ok [] /\ time_points (-1) = Raise ValueError.
Proof. split; reflexivity. Qed.

(** The literals of [__init__] are the doubles nearest to the decimals. *)
Example literal_0_3 :
  literal 3 (-1) = S754_finite false 5404319552844595 (-54) /\
  literal 1 (-1) = S754_finite false 7205759403792794 (-56).
Proof. split; vm_compute; reflexivity. Qed.

(* ================================================================== *)
(** ** More on the metrics *)

Lemma index_in_range {A : Type} (l : list A) (i : Z) :
  0 <= i < Z.of_nat (List.length l) ->
  exists x, nth_error l (Z.to_nat i) = Some x /\ index l i = Ok x.
Proof.
  intros Hi. unfold index.
  assert (H0 : (i <? 0) = false) by (apply Z.ltb_ge; lia).
  assert (H1 : (0 <=? i) = true) by (apply Z.leb_le; lia).
  assert (H2 : (i <? Z.of_nat (List.length l)) = true) by (apply Z.ltb_lt; lia).
  rewrite H0, H1, H2. cbn [andb].
  destruct (nth_error l (Z.to_nat i)) as [x|] eqn:E.
  - exists x. split; reflexivity.
  - apply nth_error_None in E. lia.
Qed.

Lemma index_out_of_range {A : Type} (l : list A) (i : Z) :
  Z.of_nat (List.length l) <= i -> index l i = Raise IndexError.
Proof.
  intros Hi. unfold index.
  assert (H0 : (i <? 0) = false) by (apply Z.ltb_ge; lia).
  assert (H2 : (i <? Z.of_nat (List.length l)) = false) by (apply Z.ltb_ge; lia).
  rewrite H0, H2, andb_false_r. reflexivity.
Qed.

Lemma index_last_app {A : Type} (l : list A) (x : A) :
  index (l ++ [x]) (-1) = Ok x.
Proof.
  destruct l as [|y l].
  - reflexivity.
  - change ((y :: l) ++ [x]) with (y :: (l ++ [x])).
    rewrite index_last.
    change (y :: l ++ [x]) with ((y :: l) ++ [x]).
    rewrite last_last. reflexivity.
Qed.

(** X1: the metrics of a trajectory of two rows or more are those of its
    first and last rows; the rows between them are never read. *)
Theorem calculate_metrics_ends (self : Model) (first last : list float)
    (middle : Np.array2) :
  calculate_metrics self (first :: middle ++ [last]) =
  calculate_metrics self [first; last].
Proof.
  unfold calculate_metrics, Np.index2.
  rewrite !index_first.
  change (first :: middle ++ [last]) with ((first :: middle) ++ [last]).
  change [first; last] with ([first] ++ [last]).
  rewrite !index_last_app.
  reflexivity.
Qed.

Lemma last_In {A : Type} (l : list A) (x : A) : In (last (x :: l) x) (x :: l).
Proof.
  revert x. induction l as [|y l IH]; intros x.
  - left. reflexivity.
  - right. rewrite last_cons, (last_cons l y x), <- (last_cons l y y). apply IH.
Qed.

Lemma rectangular_ends (k : nat) (first : list float) (rest : Np.array2) :
  rectangular k (first :: rest) ->
  List.length first = k /\ List.length (last (first :: rest) first) = k.
Proof.
  intros H. split.
  - inversion H; assumption.
  - unfold rectangular in H. rewrite Forall_forall in H. apply H.
    apply last_In.
Qed.

(** X2: for an array with k columns, the metrics are returned exactly when
    it has a row and k is at least 2; without a row, or with fewer than two
    columns, the call raises IndexError. *)
Theorem calculate_metrics_shape (self : Model) (solution : Np.array2)
    (k : nat) (Hrect : rectangular k solution) :
  (solution <> [] /\ (2 <= k)%nat ->
   exists metrics, calculate_metrics self solution = Ok metrics /\
                   map fst metrics = metric_names) /\
  (solution = [] \/ (k < 2)%nat ->
   calculate_metrics self solution = Raise IndexError).
Proof.
  split.
  - intros [Hne Hk]. destruct solution as [|first rest]; [congruence|].
    destruct (rectangular_ends k first rest Hrect) as [Hf Hl].
    unfold calculate_metrics, Np.index2.
    rewrite index_last, index_first.
    destruct first as [|i0 [|i1 first']]; cbn [List.length] in Hf; try lia.
    destruct (last _ _) as [|f0 [|f1 last']]; cbn [List.length] in Hl; try lia.
    cbn [bind]. rewrite !index_first.
    destruct (index_in_range (f0 :: f1 :: last') 1
                ltac:(cbn [List.length]; lia)) as (x & _ & ->).
    destruct (index_in_range (i0 :: i1 :: first') 1
                ltac:(cbn [List.length]; lia)) as (y & _ & ->).
    cbn [bind]. eexists. split; reflexivity.
  - intros [->|Hk]; [reflexivity|].
    destruct solution as [|first rest]; [reflexivity|].
    destruct (rectangular_ends k first rest Hrect) as [Hf Hl].
    unfold calculate_metrics, Np.index2.
    rewrite index_last. cbn [bind].
    destruct (last _ _) as [|f0 [|f1 last']]; cbn [List.length] in Hl;
      try lia; reflexivity.
Qed.

Lemma calculate_metrics_shape_witness :
  rectangular 2 (as_array [start20; start20]) /\
  exists metrics,
    calculate_metrics __init__ (as_array [start20; start20]) = Ok metrics /\
    map fst metrics = metric_names.
Proof.
  assert (H : rectangular 2 (as_array [start20; start20]))
    by (repeat constructor).
  split; [exact H|].
  apply (proj1 (calculate_metrics_shape __init__ _ 2 H)).
  split; [discriminate | apply le_n].
Defined.

(** A finite number minus itself is [0.0]. *)
Lemma sub_self (x : float) :
  is_finite x = true -> (x - x)%f64 = of_int 0.
Proof.
  destruct x as [[|]| | |s m e]; try discriminate; intros _; try reflexivity.
  unfold sub, SFsub.
  rewrite Z.sub_diag. reflexivity.
Qed.

(** X3: when a trajectory ends in the state it starts from and the sum of
    the two levels is finite, Total Growth is exactly 0.0. *)
Theorem total_growth_unchanged (self : Model) (initial : State)
    (rest : list State)
    (Hsame : final_of initial rest = initial)
    (Hfinite : is_finite (fst initial + snd initial)%f64 = true) :
  metric self (as_array (initial :: rest)) "Total Growth" =
  Ok (Some (of_int 0)).
Proof.
  rewrite metric_pairs, Hsame.
  cbn [metrics_of get String.eqb Ascii.eqb Bool.eqb].
  unfold row_of. rewrite sum_pair, sub_self; [reflexivity|].
  destruct (fst initial + snd initial)%f64 as [[|]| | |];
    try discriminate; reflexivity.
Qed.

Lemma total_growth_unchanged_witness :
  final_of start20 [origin; start20] = start20 /\
  is_finite (fst start20 + snd start20)%f64 = true /\
  metric __init__ (as_array [start20; origin; start20]) "Total Growth" =
  Ok (Some (of_int 0)).
Proof.
  split; [reflexivity|]. split; [reflexivity|].
  exact (total_growth_unchanged __init__ start20 [origin; start20]
           eq_refl eq_refl).
Defined.

(* ================================================================== *)
(** ** More on the report *)

Lemma unlines_app (l1 l2 : list string) :
  unlines (l1 ++ l2) = (unlines l1 ++ unlines l2)%string.
Proof.
  induction l1 as [|x l1 IH]; [reflexivity|].
  cbn [app unlines fold_right]. fold (unlines (l1 ++ l2)). fold (unlines l1).
  rewrite IH, !append_assoc. reflexivity.
Qed.

Lemma generate_report_head (self : Model) :
  generate_report self [] = unlines (head_lines self).
Proof.
  unfold generate_report, items, head_lines, unlines.
  cbn [fold_left fold_right]. rewrite !append_assoc. reflexivity.
Qed.

Lemma count_newlines_app (a b : string) :
  count_newlines (a ++ b)%string = (count_newlines a + count_newlines b)%nat.
Proof.
  induction a as [|c a IH]; [reflexivity|].
  cbn [append count_newlines]. rewrite IH. lia.
Qed.

Lemma count_newlines_digits (s : string) :
  skip_digits s = EmptyString -> count_newlines s = 0%nat.
Proof.
  induction s as [|c s IH]; [reflexivity|].
  cbn [skip_digits count_newlines].
  destruct (is_digit c) eqn:Hc; [|discriminate].
  intros H. rewrite (IH H).
  destruct (Ascii.eqb_spec c "010") as [->|_]; [discriminate Hc|reflexivity].
Qed.

Lemma count_newlines_format_2f (x : float) :
  count_newlines (Fmt.format_2f x) = 0%nat.
Proof.
  assert (Hfixed : forall s n,
            count_newlines (Fmt.sign s ++ Fmt.fixed2 n)%string = 0%nat).
  { intros s n. unfold Fmt.fixed2.
    rewrite !count_newlines_app.
    rewrite (count_newlines_digits _ (proj1 (decimal_digits (n / 100)))).
    assert (H1 : is_digit (Fmt.digit (n mod 100 / 10)) = true).
    { apply digit_is_digit.
      generalize (Z.mod_pos_bound n 100 ltac:(lia)). intros Hb.
      assert (n mod 100 / 10 < 10) by (apply Z.div_lt_upper_bound; lia).
      split; [apply Z.div_pos; lia | lia]. }
    assert (H2 : is_digit (Fmt.digit (n mod 10)) = true).
    { apply digit_is_digit.
      generalize (Z.mod_pos_bound n 10 ltac:(lia)). lia. }
    cbn [count_newlines].
    destruct (Ascii.eqb_spec (Fmt.digit (n mod 100 / 10)) "010") as [E|_];
      [rewrite E in H1; discriminate H1|].
    destruct (Ascii.eqb_spec (Fmt.digit (n mod 10)) "010") as [E|_];
      [rewrite E in H2; discriminate H2|].
    destruct s; reflexivity. }
  destruct x as [s|[|]| |s m e]; cbn [Fmt.format_2f];
    try apply Hfixed; reflexivity.
Qed.

Lemma count_newlines_unlines (lines : list string) :
  Forall (fun line => count_newlines line = 0%nat) lines ->
  count_newlines (unlines lines) = List.length lines.
Proof.
  induction 1 as [|x l Hx _ IH]; [reflexivity|].
  cbn [unlines fold_right List.length]. fold (unlines l).
  rewrite !count_newlines_app, Hx, IH. reflexivity.
Qed.

Lemma generate_report_unlines (self : Model) (metrics : dict float) :
  generate_report self metrics =
  unlines (head_lines self ++ map item_text (items metrics)).
Proof.
  rewrite generate_report_items, generate_report_head, unlines_app.
  reflexivity.
Qed.

(** X4: for every dictionary the report is the ten lines of the head
    followed by one line [name: value] per item, in the order of insertion;
    when no name holds a newline it has exactly 10 + len(metrics) lines. *)
Theorem generate_report_lines (self : Model) (metrics : dict float) :
  generate_report self metrics =
    unlines (head_lines self ++ map item_text (items metrics)) /\
  (Forall (fun item => count_newlines (fst item) = 0%nat) metrics ->
   count_newlines (generate_report self metrics) =
   (10 + List.length metrics)%nat).
Proof.
  pose proof (generate_report_unlines self metrics) as Heq.
  split; [exact Heq|].
  intros Hnames. rewrite Heq, count_newlines_unlines.
  - rewrite length_app, length_map. reflexivity.
  - apply Forall_app. split.
    + unfold head_lines.
      repeat (apply Forall_cons;
              [rewrite ?count_newlines_app, ?count_newlines_format_2f;
               reflexivity|]).
      apply Forall_nil.
    + unfold items. apply Forall_map.
      refine (Forall_impl _ _ Hnames). intros [name value] Hn.
      unfold item_text. cbn [fst snd] in *.
      rewrite !count_newlines_app, Hn, count_newlines_format_2f. reflexivity.
Qed.

Lemma generate_report_lines_witness :
  Forall (fun item => count_newlines (fst item) = 0%nat)
         (four_metrics (of_int 1) (of_int 2) nan (S754_infinity true)) /\
  count_newlines
    (generate_report __init__
       (four_metrics (of_int 1) (of_int 2) nan (S754_infinity true))) = 14%nat.
Proof.
  assert (H : Forall (fun item => count_newlines (fst item) = 0%nat)
                (four_metrics (of_int 1) (of_int 2) nan (S754_infinity true)))
    by (repeat constructor).
  split; [exact H|].
  exact (proj2 (generate_report_lines __init__ _) H).
Defined.

(** X5: the report of the metrics of a trajectory shows the levels of its
    last entry, then Total Growth, the difference of the two sums started
    from 0.0, and the Synergy Index. *)
Theorem report_of_trajectory (self : Model) (initial : State)
    (rest : list State) :
  let final := final_of initial rest in
  (metrics <- calculate_metrics self (as_array (initial :: rest)) ;;
   Ok (generate_report self metrics)) =
  Ok (unlines
        (head_lines self ++
         ["Region 1 Final Level: " ++ Fmt.format_2f (fst final);
          "Region 2 Final Level: " ++ Fmt.format_2f (snd final);
          "Total Growth: " ++
            Fmt.format_2f ((of_int 0 + (fst final + snd final)) -
                           (of_int 0 + (fst initial + snd initial)))%f64;
          "Synergy Index: " ++
            Fmt.format_2f (fst final * snd final /
                           (fst initial * snd initial))%f64]%string)).
Proof.
  intros final. rewrite calculate_metrics_pairs. cbn [bind].
  rewrite generate_report_unlines. fold final.
  unfold metrics_of, row_of. rewrite !sum_pair. reflexivity.
Qed.

(* ================================================================== *)
(** ** More on the time grid and the simulation *)

Lemma length_set_last (y : Np.array1) (stop : float) :
  List.length (Np.set_last y stop) = List.length y.
Proof.
  unfold Np.set_last. destruct y as [|x y]; [reflexivity|].
  destruct (exists_last (l := x :: y) ltac:(discriminate)) as (l' & z & E).
  rewrite E, removelast_last, !length_app. reflexivity.
Qed.

Lemma index_last_set_last (y : Np.array1) (stop : float) :
  y <> [] -> index (Np.set_last y stop) (-1) = Ok stop.
Proof.
  intros Hy. unfold Np.set_last. destruct y as [|x y]; [congruence|].
  apply index_last_app.
Qed.

(** [linspace] returns [num] points whatever the values are. *)
Lemma linspace_length (start stop : float) (num : Z) :
  0 <= num ->
  exists t, Np.linspace start stop num = Ok t /\
            List.length t = Z.to_nat num /\
            (1 < num -> index t (-1) = Ok stop).
Proof.
  intros Hnum. unfold Np.linspace.
  assert (H0 : (num <? 0) = false) by (apply Z.ltb_ge; lia).
  rewrite H0.
  set (y := map (fun v => (v + start)%f64) _).
  assert (Hy : List.length y = Z.to_nat num).
  { unfold y.
    destruct (0 <? num - 1); [destruct (eqb _ _)|];
      rewrite !length_map; unfold Np.arange;
      rewrite length_map, length_seq; reflexivity. }
  eexists. split; [reflexivity|].
  destruct (Z.ltb_spec 1 num) as [Hlt|Hge].
  - split; [rewrite length_set_last; exact Hy|].
    intros _. apply index_last_set_last.
    intros E. rewrite E in Hy. cbn [List.length] in Hy. lia.
  - split; [exact Hy | lia].
Qed.

(** X6: for every horizon of [years] >= 0 with 12 * years below 2^60,
    within NumPy's size limit, the grid has exactly 12 * years points
    (none for no year), and from one year on its last point is the
    horizon itself, whatever the rounding of the step. *)
Theorem time_points_length (years : Z)
    (Hyears : 0 <= years) (Hsize : years * 12 < 2 ^ 60) :
  exists t : Np.array1,
    time_points years = Ok t /\
    Z.of_nat (List.length t) = years * 12 /\
    (1 <= years -> index t (-1) = Ok (of_int years)).
Proof.
  unfold time_points.
  destruct (linspace_length (of_int 0) (of_int years) (years * 12)
              ltac:(lia)) as (t & Ht & Hlen & Hlast).
  exists t. split; [exact Ht|]. split; [lia|].
  intros H1. apply Hlast. lia.
Qed.

Lemma time_points_length_witness :
  0 <= 3 /\ 3 * 12 < 2 ^ 60 /\
  exists t : Np.array1,
    time_points 3 = Ok t /\
    Z.of_nat (List.length t) = 36 /\
    index t (-1) = Ok (of_int 3).
Proof.
  assert (H : 0 <= 3) by lia.
  assert (H' : 3 * 12 < 2 ^ 60) by lia.
  split; [exact H|]. split; [exact H'|].
  destruct (time_points_length 3 H H') as (t & Ht & Hlen & Hlast).
  exists t. split; [exact Ht|]. split; [exact Hlen|].
  apply Hlast. lia.
Defined.

(** X7: a negative horizon makes the simulation raise ValueError before
    the integrator is called, whatever the integrator. *)
Theorem simulate_cooperation_negative
    (odeint : (list float -> float -> list float -> result (list float)) ->
              list float -> Np.array1 -> list float -> result Np.array2)
    (self : Model) (years : Z) (Hneg : years < 0) :
  simulate_cooperation odeint self years = Raise ValueError.
Proof.
  unfold simulate_cooperation, Np.linspace.
  assert (H : (years * 12 <? 0) = true) by (apply Z.ltb_lt; lia).
  rewrite H. reflexivity.
Qed.

Lemma simulate_cooperation_negative_witness :
  -1 < 0 /\
  simulate_cooperation frozen_odeint __init__ (-1) = Raise ValueError.
Proof.
  split; [reflexivity|].
  exact (simulate_cooperation_negative frozen_odeint __init__ (-1) eq_refl).
Defined.

(* ================================================================== *)
(** ** More on the dynamics function *)

Lemma binary_round_aux_not_nan (s : bool) (q : positive) (e : Z)
    (l : location) :
  -1074 <= e -> is_nan (binary_round_aux prec emax s (Zpos q) e l) = false.
Proof.
  intros He. unfold binary_round_aux.
  destruct (shr_fexp_keeps q e l He) as (mrs & e1 & p & -> & Hm & He1).
  rewrite Hm.
  destruct (round_nearest_even_pos p (loc_of_shr_record mrs)) as (r & -> & _).
  destruct (shr_fexp_keeps r e1 loc_Exact He1) as (mrs2 & e2 & p2 & -> & Hm2 & _).
  rewrite Hm2. destruct (e2 <=? emax - prec); reflexivity.
Qed.

Lemma binary_round_not_nan (s : bool) (p : positive) (e : Z) :
  -1074 <= e -> is_nan (binary_round prec emax s p e) = false.
Proof.
  intros He. unfold binary_round, shl_align.
  set (e' := fexp prec emax (Zpos (digits2_pos p) + e)).
  assert (He' : -1074 <= e')
    by (unfold e', fexp, SpecFloat.emin, prec, emax; lia).
  destruct (e' - e); apply binary_round_aux_not_nan; assumption.
Qed.

(** [1 + r] is not NaN for a finite binary64 [r]. *)
Lemma one_plus_not_nan (r : float) :
  is_binary64 r = true -> is_finite r = true ->
  is_nan (of_int 1 + r)%f64 = false.
Proof.
  change (of_int 1) with (S754_finite false 4503599627370496 (-52)).
  destruct r as [s|s| |s m e]; try discriminate; try reflexivity.
  unfold is_binary64. cbn [valid_binary]. unfold bounded, canonical_mantissa.
  intros Hv _. apply andb_prop in Hv. destruct Hv as [Hc _].
  apply Z.eqb_eq in Hc.
  unfold fexp, SpecFloat.emin, prec, emax in Hc.
  assert (He : -1074 <= e) by lia.
  clear Hc. unfold add, SFadd, binary_normalize.
  match goal with
  | |- context [match ?S with Z0 => _ | Zpos _ => _ | Zneg _ => _ end] =>
      destruct S as [|p|p]
  end; [reflexivity| |]; apply binary_round_not_nan; lia.
Qed.

Lemma mul_finite_zero (x y : float) :
  is_finite x = true -> is_zero y = true -> is_zero (x * y)%f64 = true.
Proof. destruct x, y; try discriminate; reflexivity. Qed.

Lemma mul_zero_finite (x y : float) :
  is_zero x = true -> is_finite y = true -> is_zero (x * y)%f64 = true.
Proof. destruct x, y; try discriminate; reflexivity. Qed.

Lemma div_zero_num (x y : float) :
  is_zero x = true -> is_zero y = false -> is_nan y = false ->
  is_zero (x / y)%f64 = true.
Proof. destruct x, y; try discriminate; reflexivity. Qed.

Lemma add_zeros (x y : float) :
  is_zero x = true -> is_zero y = true -> is_zero (x + y)%f64 = true.
Proof. destruct x as [[|]| | |], y as [[|]| | |]; try discriminate; reflexivity. Qed.

Lemma one_minus_zero_over_100 (x : float) :
  is_zero x = true -> (of_int 1 - x / of_int 100)%f64 = of_int 1.
Proof. destruct x as [[|]| | |]; try discriminate; reflexivity. Qed.

(** The growth of a region at level zero, seen from the other region. *)
Lemma zero_level_term (rate coupling zero other : float) :
  is_zero zero = true ->
  is_finite rate = true -> is_finite coupling = true ->
  is_binary64 other = true -> is_finite other = true ->
  eqb other (of_int (-1)) = false ->
  is_zero (rate * zero * (of_int 1 - zero / of_int 100) +
           coupling * zero * other / (of_int 1 + other))%f64 = true.
Proof.
  intros Hz Hr Hc Hv Hf Hne.
  rewrite (one_minus_zero_over_100 _ Hz).
  apply add_zeros.
  - apply mul_zero_finite; [apply mul_finite_zero; assumption | reflexivity].
  - apply div_zero_num.
    + apply mul_zero_finite; [apply mul_finite_zero; assumption | assumption].
    + apply one_plus_nonzero; assumption.
    + apply one_plus_not_nan; assumption.
Qed.


Lemma zero_level_term_second (rate coupling zero other : float) :
  is_zero zero = true ->
  is_finite rate = true -> is_finite (coupling * other)%f64 = true ->
  is_binary64 other = true -> is_finite other = true ->
  eqb other (of_int (-1)) = false ->
  is_zero (rate * zero * (of_int 1 - zero / of_int 100) +
           coupling * other * zero / (of_int 1 + other))%f64 = true.
Proof.
  intros Hz Hr Hc Hv Hf Hne.
  rewrite (one_minus_zero_over_100 _ Hz).
  apply add_zeros.
  - apply mul_zero_finite; [apply mul_finite_zero; assumption | reflexivity].
  - apply div_zero_num.
    + apply mul_finite_zero; assumption.
    + apply one_plus_nonzero; assumption.
    + apply one_plus_not_nan; assumption.
Qed.

(** X8: a region at level zero does not move.  With region1 = 0, finite a
    and b, and a finite binary64 region2 other than -1, d_region1 is a
    zero; with region2 = 0, finite c, a finite product d * region1 and a
    finite binary64 region1 other than -1, d_region2 is a zero. *)
Theorem zero_level_stays (self : Model) (region1 region2 t a b c d : float) :
  exists d_region1 d_region2,
    cooperation_dynamics self [region1; region2] t a b c d =
      Ok [d_region1; d_region2] /\
    (is_zero region1 = true ->
     is_finite a = true -> is_finite b = true ->
     is_binary64 region2 = true -> is_finite region2 = true ->
     eqb region2 (of_int (-1)) = false ->
     is_zero d_region1 = true) /\
    (is_zero region2 = true ->
     is_finite c = true -> is_finite (d * region1)%f64 = true ->
     is_binary64 region1 = true -> is_finite region1 = true ->
     eqb region1 (of_int (-1)) = false ->
     is_zero d_region2 = true).
Proof.
  eexists _, _. split; [reflexivity|]. split.
  - apply zero_level_term.
  - apply zero_level_term_second.
Qed.

Lemma zero_level_stays_witness :
  exists d_region1 d_region2,
    cooperation_dynamics __init__ [of_int 0; of_int 50] (of_int 0)
      (literal 3 (-1)) (literal 2 (-1)) (literal 4 (-1)) (literal 1 (-1)) =
      Ok [d_region1; d_region2] /\
    is_zero d_region1 = true /\ is_zero d_region2 = false.
Proof.
  destruct (zero_level_stays __init__ (of_int 0) (of_int 50) (of_int 0)
              (literal 3 (-1)) (literal 2 (-1)) (literal 4 (-1))
              (literal 1 (-1))) as (d1 & d2 & Hd & H1 & _).
  exists d1, d2. split; [exact Hd|].
  split; [exact (H1 eq_refl eq_refl eq_refl eq_refl eq_refl eq_refl)|].
  vm_compute in Hd. injection Hd as _ <-. reflexivity.
Defined.

Lemma add_zero_l (z y : float) :
  is_zero z = true -> same_up_to_zero_sign (z + y)%f64 y.
Proof.
  unfold same_up_to_zero_sign.
  destruct z as [[|]| | |]; try discriminate; intros _;
    destruct y as [[|]| | |]; auto.
Qed.

(** X9: at level 100 the logistic term vanishes.  When a * 100 is finite,
    the derivative of region 1 at region1 = 100 is its coupling term
    b * 100 * region2 / (1 + region2) alone; when c * 100 is finite, that
    of region 2 at region2 = 100 is d * region1 * 100 / (1 + region1)
    (a zero may differ in sign). *)
Theorem logistic_term_vanishes (self : Model) (other t a b c d : float) :
  (is_finite (a * of_int 100)%f64 = true ->
   exists d_region1 d_region2,
     cooperation_dynamics self [of_int 100; other] t a b c d =
       Ok [d_region1; d_region2] /\
     same_up_to_zero_sign d_region1
       (b * of_int 100 * other / (of_int 1 + other))%f64) /\
  (is_finite (c * of_int 100)%f64 = true ->
   exists d_region1 d_region2,
     cooperation_dynamics self [other; of_int 100] t a b c d =
       Ok [d_region1; d_region2] /\
     same_up_to_zero_sign d_region2
       (d * other * of_int 100 / (of_int 1 + other))%f64).
Proof.
  assert (Hcap : (of_int 1 - of_int 100 / of_int 100)%f64 = S754_zero false)
    by (vm_compute; reflexivity).
  split; intros Hfin; eexists _, _; (split; [reflexivity|]);
    rewrite Hcap; apply add_zero_l;
    apply mul_finite_zero; [assumption|reflexivity|assumption|reflexivity].
Qed.

Lemma logistic_term_vanishes_witness :
  is_finite (literal 3 (-1) * of_int 100)%f64 = true /\
  exists d_region1 d_region2,
    cooperation_dynamics __init__ [of_int 100; of_int 20] (of_int 0)
      (literal 3 (-1)) (literal 2 (-1)) (literal 4 (-1)) (literal 1 (-1)) =
      Ok [d_region1; d_region2] /\
    same_up_to_zero_sign d_region1
      (literal 2 (-1) * of_int 100 * of_int 20 / (of_int 1 + of_int 20))%f64.
Proof.
  split; [reflexivity|].
  exact (proj1 (logistic_term_vanishes __init__ (of_int 20) (of_int 0)
                  (literal 3 (-1)) (literal 2 (-1)) (literal 4 (-1))
                  (literal 1 (-1))) eq_refl).
Defined.

(* ================================================================== *)
(** ** Plotting and the entry point *)

Lemma column_as_array (traj : list State) :
  column (as_array traj) 0 = Ok (map fst traj) /\
  column (as_array traj) 1 = Ok (map snd traj).
Proof.
  induction traj as [|[x y] traj [IH0 IH1]]; [split; reflexivity|].
  cbn [as_array map column row_of fst snd].
  fold (as_array traj). rewrite IH0, IH1. split; reflexivity.
Qed.

Lemma plot_results_rows (self : Model) (t : Np.array1) (traj : list State)
    (w : World) :
  plot_results self t (as_array traj) w =
  if Nat.eqb (List.length traj) (List.length t) then
    ({| stdout := stdout w;
        calls := calls w ++ figure_calls t (map fst traj) (map snd traj) |},
     Ok tt)
  else
    ({| stdout := stdout w;
        calls := calls w ++ [Plt.figure 12 8; Plt.subplot 2 1 1] |},
     Raise ValueError).
Proof.
  destruct (column_as_array traj) as [H0 H1].
  unfold plot_results, plt_plot, io_bind, lift, plt. cbv beta.
  rewrite H0, H1, !length_map, (Nat.eqb_sym (List.length t)).
  unfold State in *.
  destruct (Nat.eqb (List.length traj) (List.length t)).
  - rewrite Nat.eqb_refl. cbn [stdout calls].
    unfold figure_calls. rewrite <- !app_assoc. reflexivity.
  - cbn [stdout calls]. rewrite <- !app_assoc. reflexivity.
Qed.

(** X10: with one row per time point, [plot_results] draws region 1 and
    region 2 against the time points and region 2 against region 1, in
    this order, shows the figure last and writes nothing to standard
    output. *)
Theorem plot_results_curves (self : Model) (t : Np.array1)
    (traj : list State) (w : World)
    (Hrows : List.length traj = List.length t) :
  plot_results self t (as_array traj) w =
  ({| stdout := stdout w;
      calls := calls w ++ figure_calls t (map fst traj) (map snd traj) |},
   Ok tt).
Proof. rewrite plot_results_rows, Hrows, Nat.eqb_refl. reflexivity. Qed.

Lemma plot_results_curves_witness :
  List.length [origin; start20] = List.length [of_int 0; of_int 1] /\
  plot_results __init__ [of_int 0; of_int 1] (as_array [origin; start20])
    blank =
  ({| stdout := EmptyString;
      calls := figure_calls [of_int 0; of_int 1]
                 [of_int 0; of_int 20] [of_int 0; of_int 20] |},
   Ok tt).
Proof.
  split; [reflexivity|].
  exact (plot_results_curves __init__ [of_int 0; of_int 1]
           [origin; start20] blank eq_refl).
Defined.

(** X11: when the number of rows differs from the number of time points,
    [plot_results] raises ValueError at its first curve: the figure and
    the first subplot exist, nothing is drawn and the figure is never
    shown. *)
Theorem plot_results_mismatch (self : Model) (t : Np.array1)
    (traj : list State) (w : World)
    (Hrows : List.length traj <> List.length t) :
  plot_results self t (as_array traj) w =
  ({| stdout := stdout w;
      calls := calls w ++ [Plt.figure 12 8; Plt.subplot 2 1 1] |},
   Raise ValueError).
Proof.
  rewrite plot_results_rows.
  destruct (Nat.eqb_spec (List.length traj) (List.length t));
    [contradiction | reflexivity].
Qed.

Lemma plot_results_mismatch_witness :
  List.length [origin; start20] <> List.length [of_int 0] /\
  plot_results __init__ [of_int 0] (as_array [origin; start20]) blank =
  ({| stdout := EmptyString;
      calls := [Plt.figure 12 8; Plt.subplot 2 1 1] |},
   Raise ValueError).
Proof.
  assert (H : List.length [origin; start20] <> List.length [of_int 0])
    by discriminate.
  split; [exact H|].
  exact (plot_results_mismatch __init__ [of_int 0] [origin; start20] blank H).
Defined.

(** The default grid exists and has 600 points. *)
Lemma default_grid :
  exists t, time_points default_years = Ok t /\ List.length t = 600%nat.
Proof.
  destruct (time_points default_years) as [t|e] eqn:Ht.
  - exists t. split; [reflexivity|].
    apply (f_equal (fun r => match r with Ok l => List.length l | _ => O end))
      in Ht.
    rewrite <- Ht. vm_compute. reflexivity.
  - vm_compute in Ht. discriminate Ht.
Qed.

(** X12: in a run where the integrator returns one row of two levels per
    time point, [main] prints the report of the metrics of that
    trajectory, then draws and shows the figure; it returns normally. *)
Theorem main_success
    (odeint : (list float -> float -> list float -> result (list float)) ->
              list float -> Np.array1 -> list float -> result Np.array2)
    (t : Np.array1) (initial : State) (rest : list State) (w : World)
    (Hgrid : time_points default_years = Ok t)
    (Hsol : odeint (call_with_args (cooperation_dynamics __init__))
              initial_state t (params __init__) =
            Ok (as_array (initial :: rest)))
    (Hrows : List.length (initial :: rest) = List.length t) :
  main odeint w =
  ({| stdout :=
        (stdout w ++
         generate_report __init__
           (metrics_of initial (final_of initial rest)) ++ Fmt.nl)%string;
      calls :=
        calls w ++
        figure_calls t (map fst (initial :: rest)) (map snd (initial :: rest))
   |},
   Ok tt).
Proof.
  unfold main, simulate_cooperation. fold (time_points default_years).
  rewrite Hgrid. cbn [bind]. rewrite Hsol. cbn [bind].
  unfold io_bind at 1, lift at 1. cbv beta iota.
  rewrite calculate_metrics_pairs.
  unfold io_bind at 1, lift at 1. cbv beta iota.
  unfold io_bind at 1, print at 1. cbv beta iota.
  rewrite plot_results_rows, Hrows, Nat.eqb_refl.
  reflexivity.
Qed.

Lemma main_success_witness :
  exists t : Np.array1,
    time_points default_years = Ok t /\
    main frozen_odeint blank =
    ({| stdout :=
          (unlines
             ["International Cooperation Analysis";
              "===============================";
              "";
              "Model Parameters:";
              "Technology Transfer Rate: 0.30";
              "Trade Growth Rate: 0.20";
              "Collaboration Factor: 0.40";
              "Resource Constraint: 0.10";
              "";
              "Results:";
              "Region 1 Final Level: 20.00";
              "Region 2 Final Level: 20.00";
              "Total Growth: 0.00";
              "Synergy Index: 1.00"] ++ Fmt.nl)%string;
        calls := figure_calls t (repeat (of_int 20) 600)
                                (repeat (of_int 20) 600) |},
     Ok tt).
Proof.
  destruct default_grid as (t & Ht & Hlen).
  exists t. split; [exact Ht|].
  assert (Hsol : frozen_odeint (call_with_args (cooperation_dynamics __init__))
                   initial_state t (params __init__) =
                 Ok (as_array (start20 :: repeat start20 599))).
  { unfold frozen_odeint. rewrite map_const, Hlen. reflexivity. }
  assert (Hrows : List.length (start20 :: repeat start20 599) = List.length t).
  { rewrite Hlen. reflexivity. }
  rewrite (main_success frozen_odeint t start20 (repeat start20 599) blank
             Ht Hsol Hrows).
  vm_compute. reflexivity.
Defined.

(** X13: when the integrator raises, [main] raises the same exception, and
    when it returns no row, [main] raises IndexError; in both cases
    nothing has been printed or drawn. *)
Theorem main_no_trajectory
    (odeint : (list float -> float -> list float -> result (list float)) ->
              list float -> Np.array1 -> list float -> result Np.array2)
    (t : Np.array1) (w : World)
    (Hgrid : time_points default_years = Ok t) :
  (forall e,
     odeint (call_with_args (cooperation_dynamics __init__))
       initial_state t (params __init__) = Raise e ->
     main odeint w = (w, Raise e)) /\
  (odeint (call_with_args (cooperation_dynamics __init__))
     initial_state t (params __init__) = Ok [] ->
   main odeint w = (w, Raise IndexError)).
Proof.
  split; [intros e Hsol | intros Hsol];
    unfold main, simulate_cooperation; fold (time_points default_years);
    rewrite Hgrid; cbn [bind]; rewrite Hsol; reflexivity.
Qed.

Lemma main_no_trajectory_witness :
  main failing_odeint blank = (blank, Raise ValueError).
Proof.
  destruct default_grid as (t & Ht & _).
  exact (proj1 (main_no_trajectory failing_odeint t blank Ht)
               ValueError eq_refl).
Defined.



(* ================================================================== *)
(** ** Exchanging the two regions *)

Lemma add_comm (x y : float) : (x + y)%f64 = (y + x)%f64.
Proof.
  destruct x as [[|]|[|]| |sx mx ex], y as [[|]|[|]| |sy my ey];
    try reflexivity.
  unfold add, SFadd. rewrite (Z.min_comm ey ex), Z.add_comm. reflexivity.
Qed.

Lemma mul_comm (x y : float) : (x * y)%f64 = (y * x)%f64.
Proof.
  destruct x as [sx|sx| |sx mx ex], y as [sy|sy| |sy my ey];
    try reflexivity; unfold mul, SFmul;
    rewrite ?(xorb_comm sy sx), ?(Pos.mul_comm my mx), ?(Z.add_comm ey ex);
    reflexivity.
Qed.


(** X16: exchanging the two levels together with (a, b) and (c, d)
    exchanges the two derivatives exactly, provided the coupling products
    do not depend on the order of their factors:
    (b * region1) * region2 = (b * region2) * region1 and
    (d * region1) * region2 = (d * region2) * region1. *)
Theorem dynamics_exchange_regions (self : Model)
    (region1 region2 t a b c d : float)
    (Hb : (b * region1 * region2)%f64 = (b * region2 * region1)%f64)
    (Hd : (d * region1 * region2)%f64 = (d * region2 * region1)%f64) :
  cooperation_dynamics self [region2; region1] t c d a b =
  (derivatives <- cooperation_dynamics self [region1; region2] t a b c d ;;
   Ok (rev derivatives)).
Proof.
  unfold cooperation_dynamics. cbn [unpack2 bind rev app].
  rewrite Hb, Hd. reflexivity.
Qed.

Lemma dynamics_exchange_regions_witness :
  cooperation_dynamics __init__ [of_int 20; of_int 20] (of_int 0)
    (literal 4 (-1)) (literal 1 (-1)) (literal 3 (-1)) (literal 2 (-1)) =
  Ok [S754_finite false 4675165327460801 (-49);
      S754_finite false 4846731027551106 (-49)].
Proof.
  rewrite (dynamics_exchange_regions __init__ (of_int 20) (of_int 20)
             (of_int 0) (literal 3 (-1)) (literal 2 (-1)) (literal 4 (-1))
             (literal 1 (-1)) eq_refl eq_refl).
  vm_compute. reflexivity.
Defined.
